(** * Query filters of kpi ([kpi/filters.py]): a shallow embedding

    The development follows the four filter backends of the module:
    [KpiObjectPermissionsFilter], [SearchFilter],
    [KpiAssignedObjectPermissionsFilter] and [AttachmentFilter].  Django
    querysets are lists of rows together with the model they range over, a
    keyword filter that names a field the model lacks raises [FieldError],
    the request's query parameters are a finite map with string keys, and
    the dictionaries of questions and submissions, which the grouping of
    attachments writes into, are objects of a store. *)

From Stdlib Require Import ZArith Ascii String List Bool Lia Permutation Sorted.
From stdpp Require Import base option gmap strings list fin_maps.

Local Open Scope Z_scope.
Local Open Scope string_scope.

(** ** Exceptions and results *)

Inductive Exception : Set :=
| FieldError
| IndexError
| ValueError
| NotImplementedError.

Inductive Result (A : Type) : Type :=
| Ok (a : A)
| Raise (e : Exception).

Arguments Ok {A} a.
Arguments Raise {A} e.

Global Instance Result_ret : MRet Result := fun _ a => Ok a.

Global Instance Result_bind : MBind Result := fun _ _ f r =>
  match r with
  | Ok a => f a
  | Raise e => Raise e
  end.

(** [try: r except e => h]: the handler replaces exactly the exception [e]. *)
Definition try_except {A : Type} (r : Result A) (e : Exception)
    (handler : Result A) : Result A :=
  match r with
  | Ok a => Ok a
  | Raise e' =>
      match e, e' with
      | FieldError, FieldError
      | IndexError, IndexError
      | ValueError, ValueError
      | NotImplementedError, NotImplementedError => handler
      | _, _ => Raise e'
      end
  end.

(** ** Python strings *)

Module Py.

Definition lower_ascii (c : ascii) : ascii :=
  let n := nat_of_ascii c in
  if (andb (Nat.leb 65 n) (Nat.leb n 90)) then ascii_of_nat (n + 32) else c.

(** [str.lower], on the ASCII range. *)
Fixpoint lower (s : string) : string :=
  match s with
  | EmptyString => EmptyString
  | String c s' => String (lower_ascii c) (lower s')
  end.

(** [s.startswith(p)], returning what follows the prefix. *)
Fixpoint strip_prefix (p s : string) : option string :=
  match p with
  | EmptyString => Some s
  | String a p' =>
      match s with
      | EmptyString => None
      | String b s' => if Ascii.eqb a b then strip_prefix p' s' else None
      end
  end.

Definition startswith (s p : string) : bool :=
  match strip_prefix p s with Some _ => true | None => false end.

(** The first [n] characters of [s]. *)
Fixpoint take (n : nat) (s : string) : string :=
  match n, s with
  | S n', String c s' => String c (take n' s')
  | _, _ => EmptyString
  end.

Fixpoint rev_onto (acc s : string) : string :=
  match s with
  | EmptyString => acc
  | String c s' => rev_onto (String c acc) s'
  end.

(** [split_go sep skip acc s]: [acc] holds the current piece reversed and
    [skip] counts the characters of a separator still to be dropped. *)
Fixpoint split_go (sep : string) (skip : nat) (acc s : string) : list string :=
  match s with
  | EmptyString => [rev_onto EmptyString acc]
  | String c s' =>
      match skip with
      | S k => split_go sep k acc s'
      | O =>
          if startswith s sep
          then rev_onto EmptyString acc
                 :: split_go sep (String.length sep - 1) EmptyString s'
          else split_go sep O (String c acc) s'
      end
  end.

(** [s.split(sep)] for a non-empty separator. *)
Definition split (s sep : string) : list string :=
  split_go sep O EmptyString s.

(** [l[i]] on a list: [IndexError] out of range. *)
Definition index {A : Type} (l : list A) (i : nat) : Result A :=
  match nth_error l i with
  | Some a => Ok a
  | None => Raise IndexError
  end.

(** [distutils.util.strtobool]. *)
Definition strtobool (val : string) : Result bool :=
  let v := lower val in
  if existsb (String.eqb v) ["y"; "yes"; "t"; "true"; "on"; "1"] then Ok true
  else if existsb (String.eqb v) ["n"; "no"; "f"; "false"; "off"; "0"] then Ok false
  else Raise ValueError.

End Py.

(** ** Regular expressions, matched as [re.match] does

    Backtracking with greedy repetition, in continuation-passing style: the
    continuation receives what is left of the subject and the groups
    captured so far, and answers [None] to ask for the next alternative. *)

Module Re.

Inductive t : Type :=
| Lit (s : string)          (* a literal run of characters *)
| NotChr (c : ascii)        (* [^c] *)
| Cat (r1 r2 : t)
| Star (r : t)              (* r* , greedy *)
| Plus (r : t)              (* r+ , greedy *)
| Group (n : nat) (r : t).  (* the n-th capturing group *)

Definition Captures := list (nat * string).
Definition Cont := string -> Captures -> option Captures.

(** Greedy loop over [body]; the fuel is the length of the subject, and an
    iteration goes on only if it consumed something, so that the fuel is
    never what ends the loop. *)
Fixpoint star (body : string -> Captures -> Cont -> option Captures)
    (fuel : nat) (s : string) (caps : Captures) (k : Cont) : option Captures :=
  match fuel with
  | O => k s caps
  | S fuel' =>
      match body s caps (fun s' caps' =>
              if Nat.ltb (String.length s') (String.length s)
              then star body fuel' s' caps' k
              else None) with
      | Some r => Some r
      | None => k s caps
      end
  end.

Fixpoint run (r : t) (s : string) (caps : Captures) (k : Cont)
    : option Captures :=
  match r with
  | Lit l =>
      match Py.strip_prefix l s with
      | Some s' => k s' caps
      | None => None
      end
  | NotChr c =>
      match s with
      | String a s' => if Ascii.eqb a c then None else k s' caps
      | EmptyString => None
      end
  | Cat r1 r2 => run r1 s caps (fun s' caps' => run r2 s' caps' k)
  | Star r' => star (run r') (String.length s) s caps k
  | Plus r' =>
      run r' s caps (fun s' caps' =>
        star (run r') (String.length s') s' caps' k)
  | Group n r' =>
      run r' s caps (fun s' caps' =>
        k s' ((n, Py.take (String.length s - String.length s') s) :: caps'))
  end.

(** [pattern.match(s)]: anchored at the start, free at the end. *)
Definition match_ (r : t) (s : string) : option Captures :=
  run r s [] (fun _ caps => Some caps).

(** [m.groups()[n-1]]. *)
Fixpoint group (n : nat) (caps : Captures) : string :=
  match caps with
  | [] => EmptyString
  | (i, s) :: caps' => if Nat.eqb i n then s else group n caps'
  end.

End Re.

(** ** The object-relational layer

    A model declares the fields of its rows; [parent_fields] are the fields
    of the model its [parent] foreign key points to, consulted only when
    [parent] is itself a field. *)

Record Model : Type := {
  app_label : string;
  model_name : string;
  model_content_type : Z;
  fields : list string;
  parent_fields : list string;
  (* the constructor of the primary-key type applied to text, as in
     [int(u'12')]; [None] when it raises *)
  pk_type : string -> option Z
}.

Record Parent : Type := {
  parent_uid : string;
  parent_discoverable_when_public : bool;
  parent_usercollectionsubscription : list Z
}.

(** A row.  [usercollectionsubscription] lists the primary keys of the users
    subscribed to it.  A row has a value for each attribute that some model
    declares; the value of an attribute that its own model lacks is never
    read, since a filter on it raises before any row is looked at. *)
Record Obj : Type := {
  pk : Z;
  asset_type : string;
  discoverable_when_public : bool;
  usercollectionsubscription : list Z;
  parent : option Parent
}.

Global Instance Parent_eq_dec : EqDecision Parent.
Proof. solve_decision. Defined.

Global Instance Obj_eq_dec : EqDecision Obj.
Proof. solve_decision. Defined.

(** The keyword arguments that the module passes to [filter]. *)
Inductive Lookup : Type :=
| discoverable_when_public_eq (b : bool)
| parent__discoverable_when_public_eq (b : bool)
| usercollectionsubscription__user_eq (u : Z)
| parent__usercollectionsubscription__user_eq (u : Z)
| parent_is_None
| asset_type_eq (s : string)
| asset_type__in (l : list string)
| parent__uid_eq (s : string)
| pk__in (l : list Z).

Definition lookup_path (kw : Lookup) : list string :=
  match kw with
  | discoverable_when_public_eq _ => ["discoverable_when_public"]
  | parent__discoverable_when_public_eq _ =>
      ["parent"; "discoverable_when_public"]
  | usercollectionsubscription__user_eq _ => ["usercollectionsubscription"]
  | parent__usercollectionsubscription__user_eq _ =>
      ["parent"; "usercollectionsubscription"]
  | parent_is_None => ["parent"]
  | asset_type_eq _ | asset_type__in _ => ["asset_type"]
  | parent__uid_eq _ => ["parent"; "uid"]
  | pk__in _ => ["pk"]
  end.

Definition has_field (fs : list string) (f : string) : bool :=
  existsb (String.eqb f) fs.

(** Whether Django resolves the path on the model. *)
Definition resolves (m : Model) (path : list string) : bool :=
  match path with
  | [f] => String.eqb f "pk" || has_field (fields m) f
  | ["parent"; f] => has_field (fields m) "parent" && has_field (parent_fields m) f
  | _ => false
  end.

Definition holds (kw : Lookup) (o : Obj) : bool :=
  match kw with
  | discoverable_when_public_eq b => Bool.eqb (discoverable_when_public o) b
  | parent__discoverable_when_public_eq b =>
      match parent o with
      | Some p => Bool.eqb (parent_discoverable_when_public p) b
      | None => false
      end
  | usercollectionsubscription__user_eq u =>
      existsb (Z.eqb u) (usercollectionsubscription o)
  | parent__usercollectionsubscription__user_eq u =>
      match parent o with
      | Some p => existsb (Z.eqb u) (parent_usercollectionsubscription p)
      | None => false
      end
  | parent_is_None =>
      match parent o with Some _ => false | None => true end
  | asset_type_eq s => String.eqb (asset_type o) s
  | asset_type__in l => existsb (String.eqb (asset_type o)) l
  | parent__uid_eq s =>
      match parent o with
      | Some p => String.eqb (parent_uid p) s
      | None => false
      end
  | pk__in l => existsb (Z.eqb (pk o)) l
  end.

Record QuerySet : Type := {
  model : Model;
  rows : list Obj
}.

Module QS.

(** [queryset.filter] with keyword arguments: the keywords are resolved against the model
    before any row is looked at. *)
Definition filter (kwargs : list Lookup) (qs : QuerySet) : Result QuerySet :=
  if forallb (fun kw => resolves (model qs) (lookup_path kw)) kwargs
  then Ok {| model := model qs;
             rows := List.filter (fun o => forallb (fun kw => holds kw o) kwargs)
                       (rows qs) |}
  else Raise FieldError.

(** [queryset.none()] *)
Definition none (qs : QuerySet) : QuerySet :=
  {| model := model qs; rows := [] |}.

(** [a | b] *)
Definition or (a b : QuerySet) : QuerySet :=
  {| model := model a; rows := rows a ++ rows b |}.

(** [queryset.distinct()] *)
Definition distinct (qs : QuerySet) : QuerySet :=
  {| model := model qs; rows := remove_dups (rows qs) |}.

(** [queryset.values_list('pk', flat=True)] *)
Definition pks (qs : QuerySet) : list Z := map pk (rows qs).

End QS.

(** ** Users, grants and the request *)

Record User : Type := {
  user_pk : Z;
  username : string;
  is_superuser : bool
}.

(** [request.user] is Django's [AnonymousUser] or a stored user. *)
Inductive RequestUser : Type :=
| AnonymousUser
| Authenticated (u : User).

Definition is_anonymous (u : RequestUser) : bool :=
  match u with AnonymousUser => true | Authenticated _ => false end.

Definition request_is_superuser (u : RequestUser) : bool :=
  match u with AnonymousUser => false | Authenticated u => is_superuser u end.

Definition request_username (u : RequestUser) : string :=
  match u with AnonymousUser => "" | Authenticated u => username u end.

(** A row of the permission-assignment table. *)
Record ObjectPermission : Type := {
  op_pk : Z;
  op_user : Z;
  op_permission : string;
  content_type_id : Z;
  object_id : Z
}.

(** What the filters read besides their arguments: the setting
    [ANONYMOUS_USER_ID] and the stored grants. *)
Record Db : Type := {
  ANONYMOUS_USER_ID : Z;
  object_permissions : list ObjectPermission
}.

Record Request : Type := {
  user : RequestUser;
  query_params : gmap string string
}.

Record View : Type := {
  action : string
}.

(** Modelled from the spec: [get_anonymous_user] of
    [kpi/models/object_permission.py], which is not among the sources.
    Anonymous principals resolve to one well-known shared identity, the
    stored user whose key is the setting [ANONYMOUS_USER_ID]. *)
Definition get_anonymous_user (db : Db) : User :=
  {| user_pk := ANONYMOUS_USER_ID db;
     username := "AnonymousUser";
     is_superuser := false |}.

Definition granted (db : Db) (u : User) (permission : string) (m : Model)
    (o : Obj) : bool :=
  existsb (fun g =>
      Z.eqb (op_user g) (user_pk u)
      && String.eqb (op_permission g) permission
      && Z.eqb (content_type_id g) (model_content_type m)
      && Z.eqb (object_id g) (pk o))
    (object_permissions db).

(** Modelled from the spec: [get_objects_for_user] of
    [kpi/models/object_permission.py], which is not among the sources.  It
    yields the objects of the base set for which the principal holds the
    permission through a direct grant. *)
Definition get_objects_for_user (db : Db) (u : User) (permission : string)
    (queryset : QuerySet) : QuerySet :=
  {| model := model queryset;
     rows := List.filter (granted db u permission (model queryset))
               (rows queryset) |}.

(** ** [KpiObjectPermissionsFilter] *)

Module KpiObjectPermissionsFilter.

(** ['%(app_label)s.view_%(model_name)s'] filled in from the model. *)
Definition perm_format (m : Model) : string :=
  app_label m +:+ ".view_" +:+ model_name m.

(** The user that the subscription lookups are made for: the shared
    anonymous identity stands in for [AnonymousUser]. *)
Definition effective_user (db : Db) (u : RequestUser) : User :=
  match u with
  | AnonymousUser => get_anonymous_user db
  | Authenticated u => u
  end.

(** No special treatment of anonymous users: their share is [none()]. *)
Definition owned_and_explicitly_shared (db : Db) (u : RequestUser)
    (permission : string) (queryset : QuerySet) : QuerySet :=
  match u with
  | AnonymousUser => QS.none queryset
  | Authenticated u => get_objects_for_user db u permission queryset
  end.

Definition public (db : Db) (permission : string) (queryset : QuerySet)
    : QuerySet :=
  get_objects_for_user db (get_anonymous_user db) permission queryset.

(** The setting of the model, else of its parent, else nothing. *)
Definition discoverable (public : QuerySet) : Result QuerySet :=
  try_except (QS.filter [discoverable_when_public_eq true] public) FieldError
    (try_except
       (QS.filter [parent__discoverable_when_public_eq true] public) FieldError
       (Ok (QS.none public))).

(** The relation of the model, else of its parent, else nothing. *)
Definition subscribed (public : QuerySet) (u : User) : Result QuerySet :=
  try_except
    (QS.filter [usercollectionsubscription__user_eq (user_pk u)] public)
    FieldError
    (try_except
       (QS.filter [parent__usercollectionsubscription__user_eq (user_pk u)]
          public)
       FieldError
       (Ok (QS.none public))).

Definition is_list (view : View) : bool := String.eqb (action view) "list".

Definition filter_queryset (db : Db) (request : Request) (queryset : QuerySet)
    (view : View) : Result QuerySet :=
  if request_is_superuser (user request) && negb (is_list view)
  then Ok queryset
  else
    all_public ←
      Py.strtobool
        (Py.lower (default "false" (query_params request !! "all_public")));
    let permission := perm_format (model queryset) in
    let u := effective_user db (user request) in
    let owned :=
      owned_and_explicitly_shared db (user request) permission queryset in
    let pub := public db permission queryset in
    if negb (is_list view)
    then Ok (QS.distinct (QS.or owned pub))
    else
      disc ← discoverable pub;
      if (all_public : bool)
      then Ok (QS.distinct (QS.or owned disc))
      else
        sub ← subscribed pub u;
        Ok (QS.distinct (QS.or owned sub)).

End KpiObjectPermissionsFilter.

(** ** [SearchFilter] *)

(** A record of the search index. *)
Record Doc : Type := {
  django_ct : string;
  django_id : string;
  users_granted_permission : list string
}.

(** The configured haystack connection.  [search q d] is what Whoosh's
    [QueryParser] and searcher make of the user's query on a document;
    [index_has_users_granted_permission] tells whether the index registered
    for the model declares that field. *)
Record Haystack : Type := {
  is_whoosh : bool;
  setup_complete : bool;
  documents : list Doc;
  search : string -> Doc -> bool;
  index_has_users_granted_permission : bool
}.

(** What the filter does to the search backend, in order. *)
Inductive IndexEvent : Type :=
| GetBackend
| Setup
| Search (q : string)
| Probe.

Module SearchFilter.

Definition library_collection_pattern : Re.t :=
  Re.Cat (Re.Lit "(")
    (Re.Cat
       (Re.Group 1
          (Re.Plus
             (Re.Cat (Re.Lit "asset_type:")
                (Re.Cat (Re.Plus (Re.NotChr " ")) (Re.Star (Re.Lit " OR "))))))
       (Re.Cat (Re.Lit ") AND (parent__uid:")
          (Re.Cat (Re.Group 2 (Re.Plus (Re.NotChr ")"))) (Re.Lit ")")))).

Definition COMMON_QUERY_TO_ORM_FILTER : gmap string (list Lookup) :=
  list_to_map [
    ("asset_type:block", [asset_type_eq "block"]);
    ("asset_type:question", [asset_type_eq "question"]);
    ("asset_type:template", [asset_type_eq "template"]);
    ("asset_type:survey", [asset_type_eq "survey"]);
    ("asset_type:question OR asset_type:block",
     [asset_type__in ["question"; "block"]]);
    ("asset_type:question OR asset_type:block OR asset_type:template",
     [asset_type__in ["question"; "block"; "template"]])
  ].

(** An empty [parent] parameter asks for the objects without a parent. *)
Definition restrict_parent (request : Request) (queryset : QuerySet)
    : Result QuerySet :=
  if bool_decide (query_params request !! "parent" = Some "")
  then QS.filter [parent_is_None] queryset
  else Ok queryset.

(** The types named by the first group: the piece after the first colon of
    each [' OR ']-separated part. *)
Definition asset_types_of (group1 : string) : Result (list string) :=
  mapM (fun type_query => Py.index (Py.split type_query ":") 1)
    (Py.split group1 " OR ").

Definition get_model_ct (m : Model) : string :=
  app_label m +:+ "." +:+ model_name m.

(** [Term(DJANGO_CT, ...)], and-ed with the grantee term when the index has
    the field. *)
Definition filter_query (hs : Haystack) (request : Request) (m : Model)
    (d : Doc) : bool :=
  String.eqb (django_ct d) (get_model_ct m)
  && (if index_has_users_granted_permission hs
      then existsb (String.eqb (request_username (user request)))
             (users_granted_permission d)
      else true).

(** ['pk_type(x['django_id'])'] over the results. *)
Definition coerce_pks (m : Model) (results : list Doc) : Result (list Z) :=
  mapM (fun x =>
      match pk_type m (django_id x) with
      | Some z => Ok z
      | None => Raise ValueError
      end) results.

(** The access-controlled collection narrowed to the keys that the search
    returned, once coerced to the type of the collection's keys. *)
Definition intersect (queryset : QuerySet) (queryset_pks : list Z)
    (results : list Doc) : Result QuerySet :=
  results_pks ← coerce_pks (model queryset) results;
  let filter_pks :=
    List.filter (fun z => existsb (Z.eqb z) queryset_pks) results_pks in
  QS.filter [pk__in filter_pks] queryset.

(** The fall-back to Whoosh: the outcome and what was asked of the backend. *)
Definition whoosh (hs : Haystack) (request : Request) (q : string)
    (queryset : QuerySet) : Result QuerySet * list IndexEvent :=
  let queryset_pks := QS.pks queryset in
  match queryset_pks with
  | [] => (Ok queryset, [])
  | _ :: _ =>
      if negb (is_whoosh hs)
      then (Raise NotImplementedError, [GetBackend])
      else
        let setup := if setup_complete hs then [] else [Setup] in
        let restrict := filter_query hs request (model queryset) in
        let results :=
          List.filter (fun d => search hs q d && restrict d) (documents hs) in
        match results with
        | [] =>
            match List.filter restrict (documents hs) with
            | [] =>
                (* not a single entry for this model: the index is taken to
                   be invalid *)
                (Ok queryset, GetBackend :: setup ++ [Search q; Probe])
            | _ :: _ =>
                (intersect queryset queryset_pks results,
                 GetBackend :: setup ++ [Search q; Probe])
            end
        | _ :: _ =>
            (intersect queryset queryset_pks results,
             GetBackend :: setup ++ [Search q])
        end
  end.

(** The structured rewrite of a matched query. *)
Definition library_collection (m : Re.Captures) (queryset : QuerySet)
    : Result QuerySet :=
  asset_types ← asset_types_of (Re.group 1 m);
  let parent__uid := Re.group 2 m in
  try_except
    (QS.filter [asset_type__in asset_types; parent__uid_eq parent__uid]
       queryset)
    FieldError
    (Ok (QS.none queryset)).

Definition filter_queryset (hs : Haystack) (request : Request)
    (queryset : QuerySet) (view : View) : Result QuerySet * list IndexEvent :=
  match restrict_parent request queryset with
  | Raise e => (Raise e, [])
  | Ok queryset =>
      match query_params request !! "q" with
      | None => (Ok queryset, [])
      | Some q =>
          match COMMON_QUERY_TO_ORM_FILTER !! q with
          | Some kwargs =>
              (try_except (QS.filter kwargs queryset) FieldError
                 (Ok (QS.none queryset)), [])
          | None =>
              match Re.match_ library_collection_pattern q with
              | Some m => (library_collection m queryset, [])
              | None => whoosh hs request q queryset
              end
          end
      end
  end.

End SearchFilter.

(** ** [KpiAssignedObjectPermissionsFilter] *)

Module KpiAssignedObjectPermissionsFilter.

Definition object_ids_of (content_type user : Z)
    (queryset : list ObjectPermission) : list Z :=
  map object_id
    (List.filter
       (fun g => Z.eqb (content_type_id g) content_type
                 && Z.eqb (op_user g) user)
       queryset).

Definition filter_queryset (db : Db) (request : Request)
    (queryset : list ObjectPermission) (view : View) : list ObjectPermission :=
  let u := KpiObjectPermissionsFilter.effective_user db (user request) in
  if is_superuser u then queryset
  else if Z.eqb (user_pk u) (ANONYMOUS_USER_ID db)
  then List.filter (fun g => Z.eqb (op_user g) (user_pk u)) queryset
  else
    let content_type_ids := remove_dups (map content_type_id queryset) in
    let object_permission_ids :=
      flat_map
        (fun content_type =>
           map op_pk
             (List.filter
                (fun g =>
                   existsb (Z.eqb (object_id g))
                     (object_ids_of content_type (user_pk u) queryset))
                queryset))
        content_type_ids in
    List.filter (fun g => existsb (Z.eqb (op_pk g)) object_permission_ids)
      queryset.

End KpiAssignedObjectPermissionsFilter.

(** ** [AttachmentFilter] *)

(** ['sorted(iterable, key=...)']: a stable sort that only asks whether one
    key is less than another. *)
Module Sorted.

Section Sorting.
Context {A K : Type} (ltb : K -> K -> bool) (key : A -> K).

Fixpoint insert (x : A) (l : list A) : list A :=
  match l with
  | [] => [x]
  | y :: l' => if ltb (key y) (key x) then y :: insert x l' else x :: y :: l'
  end.

Definition sorted (l : list A) : list A := foldr insert [] l.
End Sorting.

(** The order that a relation on keys induces on the elements. *)
Definition by_key {A K : Type} (le : K -> K -> Prop) (key : A -> K)
    : A -> A -> Prop :=
  fun a b => le (key a) (key b).

(** Tuples compare lexicographically. *)
Definition pair_ltb (a b : Z * Z) : bool :=
  Z.ltb (fst a) (fst b) || (Z.eqb (fst a) (fst b) && Z.ltb (snd a) (snd b)).

End Sorted.

(** ['itertools.groupby(iterable, key)'] reads its iterable as it is asked
    to.  [next] yields, as target, the key of the first value that was not
    read yet, together with a group; the group yields that value and the
    following ones for as long as their key equals the target; the next
    [next] first passes over the values that still equal the target.  A key
    is compared with the target when its value is read, by [==] as it
    stands at that moment: the comparison is an argument of each reading. *)
Module Groupby.

Section Grouping.
Context {A K : Type} (key : A -> K).

(** ['list(group)'] once the first value of the group is taken: the other
    values of the group, and the values that are left. *)
Fixpoint grouper (eqb : K -> K -> bool) (tgtkey : K) (l : list A)
    : list A * list A :=
  match l with
  | [] => ([], [])
  | x :: l' =>
      if eqb (key x) tgtkey
      then let '(group, rest) := grouper eqb tgtkey l' in (x :: group, rest)
      else ([], l)
  end.

(** What [next] passes over before it yields the following group. *)
Fixpoint skip (eqb : K -> K -> bool) (tgtkey : K) (l : list A) : list A :=
  match l with
  | [] => []
  | x :: l' => if eqb (key x) tgtkey then skip eqb tgtkey l' else l
  end.
End Grouping.

End Groupby.

(** The values found in the dictionaries of questions and submissions. *)
Inductive Json : Type :=
| JNull
| JBool (b : bool)
| JInt (z : Z)
| JStr (s : string).

Global Instance Json_eq_dec : EqDecision Json.
Proof. solve_decision. Defined.

(** A dictionary is an object: an attachment refers to the dictionary of
    its question, and an instance to the dictionary of its submission, by
    the identity of the object, and two of them may refer to one object. *)
Definition Ref : Type := Z.

Record Instance : Type := {
  instance_id : Z;
  uuid : string;
  submission : option Ref
}.

Record Attachment : Type := {
  att_pk : Z;
  mimetype : string;
  question_index : Z;
  question : option Ref;
  instance : Instance
}.

(** The entries of a dictionary: what the record held, and the list of
    attachments that the filter writes into it. *)
Inductive Cell : Type :=
| CJson (j : Json)
| CAttachments (l : list Attachment).

Abbreviation Dict := (gmap string Cell).

(** The dictionaries that exist, by identity. *)
Abbreviation Store := (gmap Ref Dict).

(** The dictionary behind a reference; an object that the store does not
    list is an empty dictionary. *)
Definition deref (store : Store) (r : Ref) : Dict := default ∅ (store !! r).

(** A row of a grouped answer is a dictionary object: one of the store, or
    one that the filter made for the row, which nothing else refers to. *)
Inductive Row : Type :=
| Stored (r : Ref)
| New (d : Dict).

Inductive Output : Type :=
| Rows (l : list Row)
| Attachments (l : list Attachment).

Module AttachmentFilter.

(** Python's [==] on these values: [True == 1] and [False == 0], and two
    model instances are equal when their primary keys are. *)
Definition norm (j : Json) : Json :=
  match j with
  | JBool b => JInt (if b then 1 else 0)
  | _ => j
  end.

Definition norm_cell (c : Cell) : Json + list Z :=
  match c with
  | CJson j => inl (norm j)
  | CAttachments l => inr (att_pk <$> l)
  end.

Definition norm_dict (store : Store) (d : option Ref)
    : option (gmap string (Json + list Z)) :=
  match d with
  | Some r => Some (norm_cell <$> deref store r)
  | None => None
  end.

Definition dict_eqb (store : Store) (a b : option Ref) : bool :=
  bool_decide (norm_dict store a = norm_dict store b).

Definition question_key (att : Attachment) : Z * option Ref :=
  (question_index att, question att).

Definition question_key_eqb (store : Store) (a b : Z * option Ref) : bool :=
  Z.eqb (fst a) (fst b) && dict_eqb store (snd a) (snd b).

Definition submission_key (att : Attachment) : string * option Ref :=
  (uuid (instance att), submission (instance att)).

Definition submission_key_eqb (store : Store) (a b : string * option Ref)
    : bool :=
  String.eqb (fst a) (fst b) && dict_eqb store (snd a) (snd b).

(** Truth value of what [dict.get] returns. *)
Definition truthy (c : option Cell) : bool :=
  match c with
  | Some (CJson (JBool b)) => b
  | Some (CJson (JInt z)) => negb (Z.eqb z 0)
  | Some (CJson (JStr s)) => negb (String.eqb s "")
  | Some (CJson JNull) => false
  | Some (CAttachments l) => match l with [] => false | _ => true end
  | None => false
  end.

(** [d if d else fallback], where [fallback] is a dictionary display: the
    object [d] itself unless it is [None] or empty, and a new dictionary
    otherwise. *)
Definition dict_or (store : Store) (d : option Ref) (fallback : Dict) : Row :=
  match d with
  | Some r => if bool_decide (deref store r = ∅) then New fallback else Stored r
  | None => New fallback
  end.

(** The dictionary that a row is, as the store has it. *)
Definition row_dict (store : Store) (row : Row) : Dict :=
  match row with
  | Stored r => deref store r
  | New d => d
  end.

(** [row[k] = v]: written into the object. *)
Definition setitem (row : Row) (k : string) (v : Cell) (store : Store)
    : Row * Store :=
  match row with
  | Stored r => (Stored r, <[r := <[k := v]> (deref store r)]> store)
  | New d => (New (<[k := v]> d), store)
  end.

(** Truth value of a query parameter. *)
Definition nonempty (s : option string) : option string :=
  match s with
  | Some s => if String.eqb s "" then None else Some s
  | None => None
  end.

(** [queryset.order_by(sort)] *)
Definition order_by_pk (sort : string) (queryset : list Attachment)
    : list Attachment :=
  if String.eqb sort "-pk"
  then Sorted.sorted (fun a b => Z.ltb b a) att_pk queryset
  else Sorted.sorted Z.ltb att_pk queryset.

(** ['for index, (key, attachments) in enumerate(groupby(queryset, key))'],
    with the rows that the body appends to [result].  The values of the
    group are read, by ['list(attachments)'] in the body or else by the
    next [next], before anything is written for the group, and what [next]
    passes over is read after.  There is a group for each round, and every
    round takes at least one value: [fuel] need not exceed the length of
    the list. *)
Section Loop.
Context {K : Type} (key : Attachment -> K) (eqb : Store -> K -> K -> bool).
Context (body : nat -> K -> list Attachment -> Store -> list Row * Store).

Fixpoint rows (fuel : nat) (index : nat) (queryset : list Attachment)
    (store : Store) : list Row * Store :=
  match fuel, queryset with
  | S fuel, att :: queryset =>
      let tgtkey := key att in
      let '(group, queryset) :=
        Groupby.grouper key (eqb store) tgtkey queryset in
      let '(row, store) := body index tgtkey (att :: group) store in
      let '(result, store) :=
        rows fuel (S index)
          (Groupby.skip key (eqb store) tgtkey queryset) store in
      ((row ++ result)%list, store)
  | _, _ => ([], store)
  end.

Definition grouped (queryset : list Attachment) (store : Store)
    : Output * Store :=
  let '(result, store) := rows (length queryset) 0 queryset store in
  (Rows result, store).
End Loop.

(** The body of the loop over the questions. *)
Definition question_row (all : bool) (index : nat) (qid : Z * option Ref)
    (attachments : list Attachment) (store : Store) : list Row * Store :=
  let question :=
    dict_or store (snd qid) {[ "number" := CJson (JInt (fst qid)) ]} in
  if all
     || (negb all && truthy (row_dict store question !! "in_latest_version"))
  then
    let '(question, store) :=
      setitem question "attachments" (CAttachments attachments) store in
    let '(question, store) :=
      setitem question "index" (CJson (JInt (Z.of_nat index))) store in
    ([question], store)
  else ([], store).

(** The body of the loop over the submissions. *)
Definition submission_row (index : nat) (sid : string * option Ref)
    (attachments : list Attachment) (store : Store) : list Row * Store :=
  let submission :=
    dict_or store (snd sid) {[ "instance_uuid" := CJson (JStr (fst sid)) ]} in
  let '(submission, store) :=
    setitem submission "attachments" (CAttachments attachments) store in
  let '(submission, store) :=
    setitem submission "index" (CJson (JInt (Z.of_nat index))) store in
  ([submission], store).

(** The locals of [filter_queryset] that the branches share. *)
Definition all_param (request : Request) : bool :=
  String.eqb (default "true" (query_params request !! "all")) "true".

Definition sort_param (request : Request) : string :=
  if bool_decide (query_params request !! "sort" = Some "desc")
  then "-pk" else "pk".

Definition order_by_param (request : Request) : option string :=
  match nonempty (query_params request !! "group_by") with
  | Some g => Some g
  | None => query_params request !! "order_by"
  end.

(** [queryset.filter(mimetype__istartswith=attachments_type.lower())] when a
    type is asked for. *)
Definition of_type (request : Request) (queryset : list Attachment)
    : list Attachment :=
  match nonempty (query_params request !! "type") with
  | Some t =>
      List.filter
        (fun att => Py.startswith (Py.lower (mimetype att))
                      (Py.lower (Py.lower t)))
        queryset
  | None => queryset
  end.

Definition by_question (request : Request) (queryset : list Attachment)
    : list Attachment :=
  Sorted.sorted Z.ltb question_index
    (order_by_pk (sort_param request) (of_type request queryset)).

Definition by_submission (request : Request) (queryset : list Attachment)
    : list Attachment :=
  Sorted.sorted Sorted.pair_ltb
    (fun att => (instance_id (instance att), question_index att))
    (order_by_pk (sort_param request) (of_type request queryset)).

(** The answer, and the store as the filter leaves it: the rows of a
    grouped answer are objects of that store. *)
Definition filter_queryset (request : Request) (queryset : list Attachment)
    (view : View) (store : Store) : Output * Store :=
  let group_by := query_params request !! "group_by" in
  let all := all_param request in
  let order_by := order_by_param request in
  if bool_decide (order_by = Some "question") then
    let queryset := by_question request queryset in
    if bool_decide (group_by = Some "question")
    then grouped question_key question_key_eqb (question_row all)
           queryset store
    else (Attachments queryset, store)
  else if bool_decide (order_by = Some "submission") then
    let queryset := by_submission request queryset in
    if bool_decide (group_by = Some "submission")
    then grouped submission_key submission_key_eqb submission_row
           queryset store
    else (Attachments queryset, store)
  else (Attachments
          (order_by_pk (sort_param request) (of_type request queryset)),
        store).

End AttachmentFilter.

(** ** [RelatedAssetPermissionsFilter] *)

(** A row of a model related to [Asset] through a field named [asset]. *)
Record Related : Type := {
  related_pk : Z;
  asset_id : option Z
}.

Module RelatedAssetPermissionsFilter.

(** [queryset.filter(asset__in=available_assets)] *)
Definition asset__in (available_assets : QuerySet) (child : Related) : bool :=
  match asset_id child with
  | Some a => existsb (Z.eqb a) (QS.pks available_assets)
  | None => false
  end.

(** [all_assets] is [Asset.objects.all()]. *)
Definition filter_queryset (db : Db) (all_assets : QuerySet)
    (request : Request) (queryset : list Related) (view : View)
    : Result (list Related) :=
  available_assets ←
    KpiObjectPermissionsFilter.filter_queryset db request all_assets view;
  Ok (List.filter (asset__in available_assets) queryset).

End RelatedAssetPermissionsFilter.

(** ** [ReportsDetailSerializer] *)

Module ReportsDetailSerializer.

(** The variable names asked for: the pieces of [names] between commas that
    have more than one character, or [None] when the parameter is absent. *)
Definition vnames (request : Request) : option (list string) :=
  match query_params request !! "names" with
  | Some _ =>
      Some (List.filter (fun x => Nat.ltb 1 (String.length x))
              (Py.split (default "" (query_params request !! "names")) ","))
  | None => None
  end.

End ReportsDetailSerializer.

(** ** Vocabulary for the properties *)

Module Str.

(** [sep.join(l)] *)
Fixpoint join (sep : string) (l : list string) : string :=
  match l with
  | [] => EmptyString
  | [x] => x
  | x :: l' => x +:+ sep +:+ join sep l'
  end.

(** [c in s] *)
Fixpoint contains (c : ascii) (s : string) : bool :=
  match s with
  | EmptyString => false
  | String a s' => Ascii.eqb a c || contains c s'
  end.

End Str.

(** What the caller finds in an answer of [AttachmentFilter]: the
    dictionaries of its rows as the store has them in the end, and the
    attachments that they carry, row after row. *)
Definition row_attachments (row : Dict) : list Attachment :=
  match row !! "attachments" with
  | Some (CAttachments l) => l
  | _ => []
  end.

Definition output_rows (answer : Output * Store) : list Dict :=
  match answer.1 with
  | Rows rows => map (AttachmentFilter.row_dict answer.2) rows
  | Attachments _ => []
  end.

Definition output_attachments (answer : Output * Store) : list Attachment :=
  match answer.1 with
  | Rows _ => concat (map row_attachments (output_rows answer))
  | Attachments l => l
  end.

(** The dictionaries that [refs] name hold no attachments. *)
Definition unwritten (store : Store) (refs : list Ref) : Prop :=
  Forall (fun r => deref store r !! "attachments" = None) refs.

(** No two attachments of the collection have [object] find one
    dictionary for them, and the dictionaries that it finds hold no
    attachments. *)
Definition own_objects (object : Attachment -> option Ref) (store : Store)
    (queryset : list Attachment) : Prop :=
  NoDup (omap object queryset) /\ unwritten store (omap object queryset).

(** ** Concrete models, rows and requests *)

Module Examples.

Fixpoint digits (s : string) (acc : Z) : option Z :=
  match s with
  | EmptyString => Some acc
  | String c s' =>
      let n := nat_of_ascii c in
      if Nat.leb 48 n && Nat.leb n 57
      then digits s' (10 * acc + Z.of_nat (n - 48))
      else None
  end.

(** [int] on plain decimal text. *)
Definition int (s : string) : option Z :=
  match s with
  | EmptyString => None
  | _ => digits s 0
  end.

Definition asset : Model :=
  {| app_label := "kpi"; model_name := "asset"; model_content_type := 1;
     fields := ["uid"; "asset_type"; "parent"];
     parent_fields :=
       ["uid"; "parent"; "discoverable_when_public";
        "usercollectionsubscription"];
     pk_type := int |}.

Definition collection : Model :=
  {| app_label := "kpi"; model_name := "collection"; model_content_type := 2;
     fields :=
       ["uid"; "parent"; "discoverable_when_public";
        "usercollectionsubscription"];
     parent_fields :=
       ["uid"; "parent"; "discoverable_when_public";
        "usercollectionsubscription"];
     pk_type := int |}.

(** A model with neither an [asset_type] nor a [parent]. *)
Definition tag : Model :=
  {| app_label := "taggit"; model_name := "tag"; model_content_type := 3;
     fields := ["name"; "slug"];
     parent_fields := [];
     pk_type := int |}.

Definition alice : User :=
  {| user_pk := 7; username := "alice"; is_superuser := false |}.

Definition root : User :=
  {| user_pk := 1; username := "root"; is_superuser := true |}.

Definition list_view : View := {| action := "list" |}.
Definition retrieve_view : View := {| action := "retrieve" |}.

Definition request_of (u : RequestUser) (params : list (string * string))
    : Request :=
  {| user := u; query_params := list_to_map params |}.

(** A public collection that is not discoverable and to which alice is
    subscribed. *)
Definition hidden : Obj :=
  {| pk := 1; asset_type := ""; discoverable_when_public := false;
     usercollectionsubscription := [7]; parent := None |}.

(** A public, discoverable collection nobody is subscribed to. *)
Definition showcase : Obj :=
  {| pk := 2; asset_type := ""; discoverable_when_public := true;
     usercollectionsubscription := []; parent := None |}.

(** A collection of alice's own. *)
Definition private : Obj :=
  {| pk := 3; asset_type := ""; discoverable_when_public := false;
     usercollectionsubscription := []; parent := None |}.

Definition collections : QuerySet :=
  {| model := collection; rows := [hidden; showcase; private] |}.

Definition grant (n user : Z) (perm : string) (ct obj : Z) : ObjectPermission :=
  {| op_pk := n; op_user := user; op_permission := perm;
     content_type_id := ct; object_id := obj |}.

Definition db : Db :=
  {| ANONYMOUS_USER_ID := -1;
     object_permissions :=
       [grant 1 (-1) "kpi.view_collection" 2 1;
        grant 2 (-1) "kpi.view_collection" 2 2;
        grant 3 7 "kpi.view_collection" 2 3] |}.

(** A public collection that is not discoverable and to which the shared
    anonymous identity is subscribed, next to the showcase. *)
Definition unlisted : Obj :=
  {| pk := 4; asset_type := ""; discoverable_when_public := false;
     usercollectionsubscription := [-1]; parent := None |}.

Definition shelf : QuerySet :=
  {| model := collection; rows := [unlisted; showcase] |}.

Definition shelf_db : Db :=
  {| ANONYMOUS_USER_ID := -1;
     object_permissions :=
       [grant 1 (-1) "kpi.view_collection" 2 4;
        grant 2 (-1) "kpi.view_collection" 2 2] |}.

(** Two grants on objects numbered 5: alice's on an asset, bob's on a
    collection. *)
Definition alice_on_asset_5 : ObjectPermission :=
  grant 1 7 "kpi.view_asset" 1 5.

Definition bob_on_collection_5 : ObjectPermission :=
  grant 2 8 "kpi.view_collection" 2 5.

Definition assignments : list ObjectPermission :=
  [alice_on_asset_5; bob_on_collection_5].

(** Three attachments that answer question number 1, the first and the
    third with one question record and the second with another.  The
    records are the objects 1 and 2 of the store; the object 3 is a record
    of its own that reads like the first. *)
Definition question_a : Dict :=
  {[ "name" := CJson (JStr "photo");
     "in_latest_version" := CJson (JBool true) ]}.

Definition question_b : Dict :=
  {[ "name" := CJson (JStr "sketch");
     "in_latest_version" := CJson (JBool true) ]}.

Definition questions : Store :=
  {[ 1 := question_a; 2 := question_b; 3 := question_a ]}.

Definition submitted (n : Z) (u : string) : Instance :=
  {| instance_id := n; uuid := u; submission := None |}.

Definition attachment (n : Z) (q : option Ref) (i : Instance) : Attachment :=
  {| att_pk := n; mimetype := "image/png"; question_index := 1;
     question := q; instance := i |}.

Definition photo_1 : Attachment := attachment 1 (Some 1) (submitted 1 "u1").
Definition sketch_2 : Attachment := attachment 2 (Some 2) (submitted 2 "u2").
Definition photo_3 : Attachment := attachment 3 (Some 1) (submitted 3 "u1").

Definition attachments : list Attachment := [photo_1; sketch_2; photo_3].

(** The same three, the third with the record of its own. *)
Definition photo_3_copy : Attachment :=
  attachment 3 (Some 3) (submitted 3 "u1").

Definition attachments_apart : list Attachment :=
  [photo_1; sketch_2; photo_3_copy].

(** Library content: questions and blocks inside the collection [abc123],
    and others. *)
Definition in_collection (uid : string) : option Parent :=
  Some {| parent_uid := uid; parent_discoverable_when_public := false;
          parent_usercollectionsubscription := [] |}.

Definition item (n : Z) (type : string) (p : option Parent) : Obj :=
  {| pk := n; asset_type := type; discoverable_when_public := false;
     usercollectionsubscription := []; parent := p |}.

Definition assets : QuerySet :=
  {| model := asset;
     rows := [item 1 "question" (in_collection "abc123");
              item 2 "block" (in_collection "abc123");
              item 3 "survey" (in_collection "abc123");
              item 4 "question" None;
              item 5 "block" (in_collection "zzz")] |}.

Definition tags : QuerySet :=
  {| model := tag; rows := [item 1 "" None] |}.

(** A Whoosh index that was never populated. *)
Definition empty_index : Haystack :=
  {| is_whoosh := true; setup_complete := false; documents := [];
     search := fun _ _ => true;
     index_has_users_granted_permission := true |}.

Definition library_query : string :=
  "(asset_type:question OR asset_type:block) AND (parent__uid:abc123)".

(** A query of the structured shape whose type list ends in [' OR ']. *)
Definition dangling_query : string :=
  "(asset_type:a OR ) AND (parent__uid:x)".

End Examples.

Import Examples.

(** ** Further rows and requests *)

Module Cases.

(** The asset table and what hangs from it: a row on asset 1, a row on
    asset 3, and a row whose asset is not set. *)
Definition on_asset (n : Z) (a : option Z) : Related :=
  {| related_pk := n; asset_id := a |}.

Definition related_rows : list Related :=
  [on_asset 1 (Some 1); on_asset 2 (Some 3); on_asset 3 None].

(** Alice may view asset 1 only. *)
Definition asset_db : Db :=
  {| ANONYMOUS_USER_ID := -1;
     object_permissions := [grant 1 7 "kpi.view_asset" 1 1] |}.

Definition document (ct id : string) (users : list string) : Doc :=
  {| django_ct := ct; django_id := id; users_granted_permission := users |}.

(** An index in which the query [photo] matches the documents of the assets
    1 and 3 and of a collection numbered 2. *)
Definition photo_index : Haystack :=
  {| is_whoosh := true; setup_complete := true;
     documents :=
       [document "kpi.asset" "1" ["alice"];
        document "kpi.asset" "3" ["bob"];
        document "kpi.collection" "2" ["alice"]];
     search := fun q _ => String.eqb q "photo";
     index_has_users_granted_permission := true |}.

(** An index with a document whose identifier is not a number. *)
Definition broken_index : Haystack :=
  {| is_whoosh := true; setup_complete := true;
     documents := [document "kpi.asset" "one" ["alice"]];
     search := fun _ _ => true;
     index_has_users_granted_permission := false |}.

Definition other_backend : Haystack :=
  {| is_whoosh := false; setup_complete := true; documents := [];
     search := fun _ _ => true;
     index_has_users_granted_permission := false |}.

End Cases.

Import Cases.

(** * Properties *)

(** ** Querysets *)

Section QuerySets.
Implicit Types (qs r : QuerySet) (kwargs : list Lookup).

Lemma filter_unfold kwargs qs :
  QS.filter kwargs qs =
    if forallb (fun kw => resolves (model qs) (lookup_path kw)) kwargs
    then Ok {| model := model qs;
               rows := List.filter
                         (fun o => forallb (fun kw => holds kw o) kwargs)
                         (rows qs) |}
    else Raise FieldError.
Proof. reflexivity. Qed.

Lemma filter_ok kwargs qs r :
  QS.filter kwargs qs = Ok r ->
  model r = model qs /\
  rows r = List.filter (fun o => forallb (fun kw => holds kw o) kwargs)
             (rows qs).
Proof.
  rewrite filter_unfold. case (forallb _ kwargs); [|discriminate].
  intros [= <-]. split; reflexivity.
Qed.

Lemma filter_subseteq kwargs qs r :
  QS.filter kwargs qs = Ok r -> rows r ⊆ rows qs.
Proof.
  intros [_ ->]%filter_ok o Ho.
  apply list_elem_of_In in Ho. apply filter_In in Ho as [Ho _].
  now apply list_elem_of_In.
Qed.

Lemma filter_raise kwargs qs e :
  QS.filter kwargs qs = Raise e -> e = FieldError.
Proof.
  rewrite filter_unfold. case (forallb _ kwargs); [discriminate|].
  now intros [= <-].
Qed.

(** A filter guarded by [except FieldError] never raises. *)
Lemma try_filter kwargs qs (h : Result QuerySet) :
  try_except (QS.filter kwargs qs) FieldError h =
    if forallb (fun kw => resolves (model qs) (lookup_path kw)) kwargs
    then QS.filter kwargs qs
    else h.
Proof.
  rewrite filter_unfold. now case (forallb _ kwargs).
Qed.

Lemma get_objects_for_user_subseteq db u permission qs :
  rows (get_objects_for_user db u permission qs) ⊆ rows qs.
Proof.
  intros o Ho. apply list_elem_of_In in Ho. apply filter_In in Ho as [Ho _].
  now apply list_elem_of_In.
Qed.

Lemma elem_of_distinct_or a b o :
  o ∈ rows (QS.distinct (QS.or a b)) <-> o ∈ rows a \/ o ∈ rows b.
Proof.
  cbn. rewrite elem_of_remove_dups. apply elem_of_app.
Qed.
End QuerySets.

(** ** [KpiObjectPermissionsFilter] *)

Section ObjectPermissions.
Import KpiObjectPermissionsFilter.
Implicit Types (db : Db) (request : Request) (view : View).
Implicit Types (queryset pub : QuerySet).

(** The chain model, then parent, then nothing always yields a part of
    the public objects. *)
Lemma fallback_chain_total kw1 kw2 pub :
  exists d,
    try_except (QS.filter kw1 pub) FieldError
      (try_except (QS.filter kw2 pub) FieldError (Ok (QS.none pub))) = Ok d
    /\ model d = model pub /\ rows d ⊆ rows pub.
Proof.
  rewrite !try_filter, !filter_unfold.
  destruct (forallb _ kw1); [|destruct (forallb _ kw2)];
    eexists; (split; [reflexivity|]); (split; [reflexivity|]); cbn.
  - intros o [Ho _]%list_elem_of_In%filter_In. now apply list_elem_of_In.
  - intros o [Ho _]%list_elem_of_In%filter_In. now apply list_elem_of_In.
  - intros o Ho. inversion Ho.
Qed.

Lemma discoverable_total pub :
  exists d, discoverable pub = Ok d /\ model d = model pub /\
            rows d ⊆ rows pub.
Proof. apply fallback_chain_total. Qed.

Lemma subscribed_total pub u :
  exists s, subscribed pub u = Ok s /\ model s = model pub /\
            rows s ⊆ rows pub.
Proof. apply fallback_chain_total. Qed.

(** What a list request goes through, whoever asks. *)
Lemma filter_queryset_list db request queryset view all_public :
  is_list view = true ->
  Py.strtobool
    (Py.lower (default "false" (query_params request !! "all_public")))
    = Ok all_public ->
  let permission := perm_format (model queryset) in
  let owned :=
    owned_and_explicitly_shared db (user request) permission queryset in
  let pub := public db permission queryset in
  exists disc sub,
    discoverable pub = Ok disc /\
    subscribed pub (effective_user db (user request)) = Ok sub /\
    filter_queryset db request queryset view =
      Ok (QS.distinct (QS.or owned (if all_public then disc else sub))).
Proof.
  intros Hlist Hflag permission owned pub.
  destruct (discoverable_total pub) as (disc & Hdisc & _).
  destruct (subscribed_total pub (effective_user db (user request)))
    as (sub & Hsub & _).
  exists disc, sub. split; [exact Hdisc|]. split; [exact Hsub|].
  unfold filter_queryset. rewrite Hlist, andb_false_r, Hflag. cbn.
  fold permission. fold pub. rewrite Hdisc. cbn.
  destruct all_public; [reflexivity|]. now rewrite Hsub.
Qed.
End ObjectPermissions.

Section ObjectPermissionsClaims.
Import KpiObjectPermissionsFilter.

(** For an authenticated principal who lists without [all_public], the
    result is made of the owned or shared objects and of the subscribed
    ones, the latter being drawn from the public objects. *)
Lemma list_without_all_public db u params queryset view :
  is_list view = true ->
  Py.strtobool (Py.lower (default "false" (params !! "all_public")))
    = Ok false ->
  let request := {| user := Authenticated u; query_params := params |} in
  let permission := perm_format (model queryset) in
  exists sub r,
    subscribed (public db permission queryset) u = Ok sub /\
    filter_queryset db request queryset view = Ok r /\
    forall o, o ∈ rows r <->
      (o ∈ rows (get_objects_for_user db u permission queryset)
       \/ o ∈ rows sub).
Proof.
  intros Hlist Hflag request permission.
  destruct (filter_queryset_list db request queryset view false Hlist Hflag)
    as (disc & sub & _ & Hsub & Hres).
  exists sub. eexists. split; [exact Hsub|]. split; [exact Hres|].
  intros o. apply elem_of_distinct_or.
Qed.

(** C1, at a collection that is public, not discoverable, and subscribed
    to by alice: listing as alice without [all_public] returns it, although
    it is neither owned by or shared with her nor among the discoverable
    objects.  The subscribed objects are filtered out of the public ones,
    not out of the discoverable ones. *)
Theorem C1_subscribed_but_not_discoverable :
  let request := request_of (Authenticated alice) [] in
  let permission := perm_format collection in
  let pub := public db permission collections in
  filter_queryset db request collections list_view
    = Ok {| model := collection; rows := [private; hidden] |}
  /\ rows (owned_and_explicitly_shared db (Authenticated alice) permission
             collections) = [private]
  /\ discoverable pub = Ok {| model := collection; rows := [showcase] |}
  /\ subscribed pub alice = Ok {| model := collection; rows := [hidden] |}
  /\ (hidden ∉ [private]) /\ (hidden ∉ [showcase]).
Proof.
  repeat split; try (vm_compute; reflexivity);
    rewrite list_elem_of_singleton; discriminate.
Qed.

(** C2: a superuser who is not listing gets the queryset back as it is;
    when listing, the outcome for a superuser is the one the same user
    would get without the superuser flag. *)
Theorem C2_superuser db (params : gmap string string) queryset view pk name :
  (forall u, request_is_superuser u = true -> is_list view = false ->
     filter_queryset db {| user := u; query_params := params |} queryset view
       = Ok queryset)
  /\ (is_list view = true ->
      filter_queryset db
        {| user := Authenticated
             {| user_pk := pk; username := name; is_superuser := true |};
           query_params := params |} queryset view
      = filter_queryset db
          {| user := Authenticated
               {| user_pk := pk; username := name; is_superuser := false |};
             query_params := params |} queryset view).
Proof.
  split.
  - intros u Hsuper Hview. unfold filter_queryset. cbn.
    now rewrite Hsuper, Hview.
  - intros Hview. unfold filter_queryset. cbn. rewrite Hview. reflexivity.
Qed.

Lemma C2_superuser_witness :
  filter_queryset db (request_of (Authenticated root) []) collections
    retrieve_view = Ok collections
  /\ filter_queryset db (request_of (Authenticated root) []) collections
       list_view
     = filter_queryset db
         (request_of
            (Authenticated
               {| user_pk := 1; username := "root"; is_superuser := false |})
            [])
         collections list_view.
Proof.
  split.
  - apply (proj1 (C2_superuser db ∅ collections retrieve_view 1 "root")
             (Authenticated root)); reflexivity.
  - apply (proj2 (C2_superuser db ∅ collections list_view 1 "root")).
    reflexivity.
Defined.

(** For Django's anonymous user the owned-or-shared part is empty, and a
    list request yields the discoverable objects when [all_public] is true
    and, when it is false, what [subscribed] finds among the public objects
    for the shared anonymous identity. *)
Lemma anonymous_list db (params : gmap string string) queryset view :
  let request := {| user := AnonymousUser; query_params := params |} in
  let pub := public db (perm_format (model queryset)) queryset in
  (forall permission,
     rows (owned_and_explicitly_shared db AnonymousUser permission queryset)
       = [])
  /\ (is_list view = true ->
      forall all_public,
        Py.strtobool (Py.lower (default "false" (params !! "all_public")))
          = Ok all_public ->
        exists disc sub r,
          discoverable pub = Ok disc /\
          subscribed pub (get_anonymous_user db) = Ok sub /\
          filter_queryset db request queryset view = Ok r /\
          model r = model queryset /\
          forall o, o ∈ rows r <->
                    o ∈ rows (if all_public then disc else sub)).
Proof.
  intros request pub. split; [reflexivity|].
  intros Hlist all_public Hflag.
  destruct (filter_queryset_list db request queryset view all_public
              Hlist Hflag) as (disc & sub & Hdisc & Hsub & Hres).
  exists disc, sub. eexists. repeat (split; [eassumption|]).
  split; [reflexivity|].
  intros o. rewrite elem_of_distinct_or. cbn.
  split; [intros [H|H]; [inversion H|exact H]|now right].
Qed.

(** C3, at a collection that is public, not discoverable, and subscribed
    to by the shared anonymous identity, next to a discoverable one:
    listing as the anonymous user without [all_public] returns it, although
    it is not among the discoverable objects, of which the subscribed ones
    are to be a part.  As for C1, the subscribed objects are filtered out
    of the public ones, not out of the discoverable ones.  The
    owned-or-shared part is empty, and with [all_public] the answer is the
    discoverable objects. *)
Theorem C3_anonymous_subscription :
  let permission := perm_format collection in
  let pub := public shelf_db permission shelf in
  filter_queryset shelf_db (request_of AnonymousUser []) shelf list_view
    = Ok {| model := collection; rows := [unlisted] |}
  /\ rows (owned_and_explicitly_shared shelf_db AnonymousUser permission
             shelf) = []
  /\ rows pub = [unlisted; showcase]
  /\ discoverable pub = Ok {| model := collection; rows := [showcase] |}
  /\ subscribed pub (get_anonymous_user shelf_db)
     = Ok {| model := collection; rows := [unlisted] |}
  /\ (unlisted ∉ [showcase])
  /\ discoverable_when_public unlisted = false
  /\ filter_queryset shelf_db
       (request_of AnonymousUser [("all_public", "true")]) shelf list_view
     = Ok {| model := collection; rows := [showcase] |}.
Proof.
  repeat split; try (vm_compute; reflexivity).
  rewrite list_elem_of_singleton; discriminate.
Qed.
End ObjectPermissionsClaims.

(** ** [SearchFilter] *)

Section Search.
Import SearchFilter.
Implicit Types (hs : Haystack) (request : Request) (view : View).
Implicit Types (queryset r : QuerySet) (q : string).

Lemma filter_nil {A : Type} (f : A -> bool) (l : list A) :
  (forall x, x ∈ l -> f x = false) -> List.filter f l = [].
Proof.
  induction l as [|x l IH]; intros Hf; [reflexivity|]. cbn.
  rewrite (Hf x) by left. apply IH. intros y Hy. apply Hf. now right.
Qed.

Lemma List_filter_subseteq {A : Type} (f : A -> bool) (l : list A) :
  List.filter f l ⊆ l.
Proof.
  intros x [Hx _]%list_elem_of_In%filter_In. now apply list_elem_of_In.
Qed.

Lemma restrict_parent_ok request queryset queryset' :
  restrict_parent request queryset = Ok queryset' ->
  model queryset' = model queryset /\ rows queryset' ⊆ rows queryset.
Proof.
  unfold restrict_parent. case bool_decide.
  - intros H. split; [apply (filter_ok _ _ _ H)|apply (filter_subseteq _ _ _ H)].
  - now intros [= <-].
Qed.

(** Without an empty [parent] parameter the collection is left alone. *)
Lemma restrict_parent_absent request queryset :
  query_params request !! "parent" <> Some "" ->
  restrict_parent request queryset = Ok queryset.
Proof.
  intros H. unfold restrict_parent. now rewrite bool_decide_eq_false_2.
Qed.

(** A rewritten filter under [except FieldError]: the rows that satisfy
    the keywords when the model has the fields, and no row otherwise. *)
Lemma guarded_filter kwargs queryset :
  try_except (QS.filter kwargs queryset) FieldError (Ok (QS.none queryset))
  = Ok {| model := model queryset;
          rows :=
            if forallb (fun kw => resolves (model queryset) (lookup_path kw))
                 kwargs
            then List.filter
                   (fun o => forallb (fun kw => holds kw o) kwargs)
                   (rows queryset)
            else [] |}.
Proof.
  rewrite try_filter, filter_unfold. now case (forallb _ kwargs).
Qed.

Lemma guarded_filter_subseteq kwargs queryset r :
  try_except (QS.filter kwargs queryset) FieldError (Ok (QS.none queryset))
    = Ok r ->
  rows r ⊆ rows queryset.
Proof.
  rewrite guarded_filter. intros [= <-]. cbn.
  case (forallb _ kwargs); [apply List_filter_subseteq|].
  intros o Ho. inversion Ho.
Qed.

Lemma library_collection_subseteq m queryset r :
  library_collection m queryset = Ok r -> rows r ⊆ rows queryset.
Proof.
  unfold library_collection.
  destruct (asset_types_of (Re.group 1 m)) as [tys|e]; cbn; [|discriminate].
  apply guarded_filter_subseteq.
Qed.

Lemma intersect_subseteq queryset queryset_pks results r :
  intersect queryset queryset_pks results = Ok r -> rows r ⊆ rows queryset.
Proof.
  unfold intersect, mbind, Result_bind.
  destruct (coerce_pks (model queryset) results); [|discriminate].
  apply filter_subseteq.
Qed.

Lemma whoosh_subseteq hs request q queryset r :
  (whoosh hs request q queryset).1 = Ok r -> rows r ⊆ rows queryset.
Proof.
  unfold whoosh.
  destruct (QS.pks queryset) as [|z pks]; [now intros [= <-]|].
  destruct (is_whoosh hs); [|discriminate]. cbv zeta. cbn [negb].
  destruct (List.filter _ (documents hs)) as [|d results].
  - destruct (List.filter _ (documents hs)).
    + now intros [= <-].
    + apply intersect_subseteq.
  - apply intersect_subseteq.
Qed.

Lemma search_filter_subseteq hs request queryset view r :
  (filter_queryset hs request queryset view).1 = Ok r ->
  rows r ⊆ rows queryset.
Proof.
  unfold filter_queryset.
  destruct (restrict_parent request queryset) as [queryset'|e] eqn:Hparent;
    [|discriminate].
  apply restrict_parent_ok in Hparent as [_ Hsub].
  intros Hres. transitivity (rows queryset'); [|exact Hsub].
  destruct (query_params request !! "q") as [q|]; [|now injection Hres as <-].
  destruct (COMMON_QUERY_TO_ORM_FILTER !! q) as [kwargs|].
  { now apply (guarded_filter_subseteq kwargs). }
  destruct (Re.match_ library_collection_pattern q) as [m|].
  { now apply (library_collection_subseteq m). }
  now apply (whoosh_subseteq hs request q).
Qed.
End Search.

Section SearchClaims.
Import SearchFilter.
Implicit Types (hs : Haystack) (request : Request) (view : View).

(** C6: a query that reaches the index while the index holds no document
    at all for the model (so that it has no match for the query either)
    gets the collection back as it stood when the search began, not an
    empty result.  The collection is the one left by the [parent]
    restriction, which comes first. *)
Theorem C6_unpopulated_index hs request queryset restricted view q :
  restrict_parent request queryset = Ok restricted ->
  query_params request !! "q" = Some q ->
  COMMON_QUERY_TO_ORM_FILTER !! q = None ->
  Re.match_ library_collection_pattern q = None ->
  rows restricted <> [] ->
  is_whoosh hs = true ->
  (forall d, d ∈ documents hs ->
             String.eqb (django_ct d) (get_model_ct (model restricted))
             = false) ->
  filter_queryset hs request queryset view
  = (Ok restricted,
     GetBackend :: (if setup_complete hs then [] else [Setup])
       ++ [Search q; Probe]).
Proof.
  intros Hparent Hq Htable Hpattern Hrows Hwhoosh Hnone.
  unfold filter_queryset. rewrite Hparent, Hq, Htable, Hpattern.
  unfold whoosh, QS.pks.
  destruct (rows restricted) as [|o os]; [congruence|]. cbn [map].
  rewrite Hwhoosh. cbv zeta. cbn [negb].
  rewrite !filter_nil; [reflexivity| |].
  - intros d Hd. unfold filter_query. now rewrite (Hnone d Hd).
  - intros d Hd. unfold filter_query. rewrite (Hnone d Hd).
    apply andb_false_r.
Qed.

Lemma C6_unpopulated_index_witness :
  filter_queryset empty_index
    (request_of (Authenticated alice) [("q", "foo")]) assets list_view
  = (Ok assets, [GetBackend; Setup; Search "foo"; Probe]).
Proof.
  apply (C6_unpopulated_index empty_index
           (request_of (Authenticated alice) [("q", "foo")])
           assets assets list_view "foo").
  - vm_compute; reflexivity.
  - vm_compute; reflexivity.
  - vm_compute; reflexivity.
  - vm_compute; reflexivity.
  - discriminate.
  - reflexivity.
  - intros d Hd. inversion Hd.
Defined.

(** What the two guarded rewrites do when the model lacks a field of the
    predicate: the [FieldError] is caught and no row is returned. *)
Lemma common_query_field_error hs request queryset restricted view q kwargs :
  restrict_parent request queryset = Ok restricted ->
  query_params request !! "q" = Some q ->
  COMMON_QUERY_TO_ORM_FILTER !! q = Some kwargs ->
  forallb (fun kw => resolves (model restricted) (lookup_path kw)) kwargs
    = false ->
  filter_queryset hs request queryset view = (Ok (QS.none restricted), []).
Proof.
  intros Hparent Hq Htable Hfield.
  unfold filter_queryset. rewrite Hparent, Hq, Htable, guarded_filter.
  now rewrite Hfield.
Qed.

Lemma library_collection_field_error hs request queryset restricted view q
    m types :
  restrict_parent request queryset = Ok restricted ->
  query_params request !! "q" = Some q ->
  COMMON_QUERY_TO_ORM_FILTER !! q = None ->
  Re.match_ library_collection_pattern q = Some m ->
  asset_types_of (Re.group 1 m) = Ok types ->
  resolves (model restricted) ["asset_type"]
    && resolves (model restricted) ["parent"; "uid"] = false ->
  filter_queryset hs request queryset view = (Ok (QS.none restricted), []).
Proof.
  intros Hparent Hq Htable Hpattern Htypes Hfield.
  unfold filter_queryset. rewrite Hparent, Hq, Htable, Hpattern.
  unfold library_collection. rewrite Htypes.
  unfold mbind, Result_bind. rewrite guarded_filter.
  cbn [forallb lookup_path]. rewrite andb_true_r, Hfield. reflexivity.
Qed.

(** The [parent] restriction comes before the query is looked at and is
    not guarded: on a model without a [parent] it raises. *)
Lemma restrict_parent_field_error request queryset :
  query_params request !! "parent" = Some "" ->
  resolves (model queryset) ["parent"] = false ->
  restrict_parent request queryset = Raise FieldError.
Proof.
  intros Hparam Hfield. unfold restrict_parent.
  rewrite bool_decide_eq_true_2 by exact Hparam.
  rewrite filter_unfold. cbn [forallb lookup_path]. now rewrite Hfield.
Qed.

(** C7, at a query that the structured pattern recognises and whose type
    list ends in [' OR ']: on a model with neither [asset_type] nor
    [parent] the filter raises [IndexError], whatever the index.  The
    list of types is built outside the [try], and the empty piece that
    [split] leaves after the last [' OR '] has no second component. *)
Theorem C7_recognised_query_raises hs :
  COMMON_QUERY_TO_ORM_FILTER !! dangling_query = None
  /\ Re.match_ library_collection_pattern dangling_query
     = Some [(2%nat, "x"); (1%nat, "asset_type:a OR ")]
  /\ Py.split "asset_type:a OR " " OR " = ["asset_type:a"; ""]
  /\ resolves tag ["asset_type"] = false
  /\ resolves tag ["parent"; "uid"] = false
  /\ filter_queryset hs
       (request_of (Authenticated alice) [("q", dangling_query)])
       tags list_view
     = (Raise IndexError, []).
Proof.
  repeat split; vm_compute; reflexivity.
Qed.

(** C8: the library query misses the table, matches the pattern with the
    types [question] and [block] and the parent [abc123], and the filter
    answers, without a single request to the index, with exactly the rows
    of the collection that are of one of the two types and whose parent
    has that uid.  The collection is the one left by the [parent]
    restriction; being of a type and having a parent with a uid are
    understood on a model that has these fields. *)
Theorem C8_library_query hs request queryset restricted view :
  query_params request !! "q" = Some library_query ->
  restrict_parent request queryset = Ok restricted ->
  COMMON_QUERY_TO_ORM_FILTER !! library_query = None
  /\ (exists m,
        Re.match_ library_collection_pattern library_query = Some m
        /\ asset_types_of (Re.group 1 m) = Ok ["question"; "block"]
        /\ Re.group 2 m = "abc123")
  /\ exists r,
       filter_queryset hs request queryset view = (Ok r, [])
       /\ model r = model restricted
       /\ forall o,
            o ∈ rows r <->
            (o ∈ rows restricted
             /\ resolves (model restricted) ["asset_type"] = true
             /\ resolves (model restricted) ["parent"; "uid"] = true
             /\ (asset_type o = "question" \/ asset_type o = "block")
             /\ exists p, parent o = Some p /\ parent_uid p = "abc123").
Proof.
  intros Hq Hparent.
  assert (Htable : COMMON_QUERY_TO_ORM_FILTER !! library_query = None)
    by (vm_compute; reflexivity).
  assert (Hpattern :
    Re.match_ library_collection_pattern library_query
    = Some [(2%nat, "abc123");
            (1%nat, "asset_type:question OR asset_type:block")])
    by (vm_compute; reflexivity).
  split; [exact Htable|]. split.
  { eexists. split; [exact Hpattern|]. split; vm_compute; reflexivity. }
  eexists. split.
  { unfold filter_queryset. rewrite Hparent, Hq, Htable, Hpattern.
    unfold library_collection.
    replace (asset_types_of _) with (Ok (A:=list string) ["question"; "block"])
      by (vm_compute; reflexivity).
    unfold mbind, Result_bind. rewrite guarded_filter.
    replace (Re.group 2 _) with "abc123" by (vm_compute; reflexivity).
    reflexivity. }
  split; [reflexivity|].
  intros o. cbn [rows forallb lookup_path]. rewrite andb_true_r.
  destruct (resolves (model restricted) ["asset_type"]);
    destruct (resolves (model restricted) ["parent"; "uid"]); cbn [andb];
    try (split; [intros H; inversion H|intros (_ & ? & ? & _); discriminate]).
  rewrite list_elem_of_In, filter_In, <- list_elem_of_In.
  cbn [forallb holds existsb]. rewrite !andb_true_r, orb_false_r.
  rewrite andb_true_iff, orb_true_iff, !String.eqb_eq.
  split.
  - intros (Ho & Htype & Huid). repeat (split; [assumption || reflexivity|]).
    destruct (parent o) as [p|]; [|discriminate].
    exists p. split; [reflexivity|]. now apply String.eqb_eq.
  - intros (Ho & _ & _ & Htype & p & Hp & Huid).
    repeat (split; [assumption|]). rewrite Hp. now apply String.eqb_eq.
Qed.

Lemma C8_library_query_witness :
  exists r,
    filter_queryset empty_index
      (request_of (Authenticated alice) [("q", library_query)])
      assets list_view = (Ok r, [])
    /\ (item 1 "question" (in_collection "abc123") ∈ rows r)
    /\ (item 5 "block" (in_collection "zzz") ∉ rows r).
Proof.
  destruct (C8_library_query empty_index
              (request_of (Authenticated alice) [("q", library_query)])
              assets assets list_view)
    as (_ & _ & r & Hres & _ & Hrows);
    [vm_compute; reflexivity|vm_compute; reflexivity|].
  exists r. split; [exact Hres|]. split.
  - apply Hrows. split; [left|]. repeat split; [now left|].
    eexists. split; reflexivity.
  - intros (_ & _ & _ & _ & p & [= <-] & Huid)%Hrows. discriminate.
Defined.

(** C10 as stated fails for a request that also carries an empty
    [parent] parameter, on a model without a [parent] field: the query
    [foo] misses the table and the pattern and the collection is empty,
    yet the filter does not return it: the restriction to the objects
    without a parent, which comes before the query is looked at and is not
    guarded, raises [FieldError]. *)
Lemma C10_empty_parent_raises :
  let request :=
    request_of (Authenticated alice) [("parent", ""); ("q", "foo")] in
  let queryset := {| model := tag; rows := [] |} in
  query_params request !! "q" = Some "foo"
  /\ COMMON_QUERY_TO_ORM_FILTER !! "foo" = None
  /\ Re.match_ library_collection_pattern "foo" = None
  /\ rows queryset = []
  /\ filter_queryset other_backend request queryset list_view
     = (Raise FieldError, [])
  /\ filter_queryset other_backend request queryset list_view
     <> (Ok queryset, []).
Proof.
  repeat split; try (vm_compute; reflexivity).
  vm_compute. discriminate.
Qed.

(** C10, amended.  When the query misses both the table and the pattern
    and the collection is empty, the backend is not asked anything: the
    outcome is not the error raised for an unsupported backend, and the
    index is not probed.  The filter returns the collection as it is,
    unless the request carries an empty [parent] parameter and the model
    has no [parent] field: then, and only then, it raises [FieldError]. *)
Theorem C10_empty_collection hs request queryset view q :
  query_params request !! "q" = Some q ->
  COMMON_QUERY_TO_ORM_FILTER !! q = None ->
  Re.match_ library_collection_pattern q = None ->
  rows queryset = [] ->
  (filter_queryset hs request queryset view).2 = []
  /\ (filter_queryset hs request queryset view).1
     <> Raise NotImplementedError
  /\ (Probe ∉ (filter_queryset hs request queryset view).2)
  /\ (query_params request !! "parent" <> Some ""
      \/ resolves (model queryset) ["parent"] = true ->
      filter_queryset hs request queryset view = (Ok queryset, []))
  /\ (query_params request !! "parent" = Some "" ->
      resolves (model queryset) ["parent"] = false ->
      filter_queryset hs request queryset view = (Raise FieldError, [])).
Proof.
  intros Hq Htable Hpattern Hrows.
  assert (Hempty : forall restricted,
    restrict_parent request queryset = Ok restricted ->
    filter_queryset hs request queryset view = (Ok queryset, [])).
  { intros restricted Hparent.
    assert (restricted = queryset) as ->.
    { revert Hparent. unfold restrict_parent. case bool_decide.
      - rewrite filter_unfold. case (forallb _ _); [|discriminate].
        intros [= <-]. destruct queryset as [m l]. cbn in *. now subst l.
      - now intros [= <-]. }
    unfold filter_queryset. rewrite Hparent, Hq, Htable, Hpattern.
    unfold whoosh, QS.pks. now rewrite Hrows. }
  assert (Hraise : forall e,
    restrict_parent request queryset = Raise e ->
    filter_queryset hs request queryset view = (Raise e, [])
    /\ e = FieldError).
  { intros e Hparent. split.
    - unfold filter_queryset. now rewrite Hparent.
    - revert Hparent. unfold restrict_parent. case bool_decide.
      + rewrite filter_unfold. case (forallb _ _); [discriminate|].
        now intros [= <-].
      + discriminate. }
  destruct (restrict_parent request queryset) as [restricted|e] eqn:Hparent.
  - rewrite (Hempty restricted eq_refl). cbn [fst snd].
    split; [reflexivity|]. split; [discriminate|].
    split; [intros H; inversion H|]. split; [reflexivity|].
    intros Hparam Hfield.
    now rewrite (restrict_parent_field_error _ _ Hparam Hfield) in Hparent.
  - destruct (Hraise e eq_refl) as [Hres ->]. rewrite Hres. cbn [fst snd].
    split; [reflexivity|]. split; [discriminate|].
    split; [intros H; inversion H|]. split; [|reflexivity].
    intros [Hparam|Hfield].
    + now rewrite (restrict_parent_absent _ _ Hparam) in Hparent.
    + revert Hparent. unfold restrict_parent. case bool_decide; [|discriminate].
      rewrite filter_unfold. cbn [forallb lookup_path]. now rewrite Hfield.
Qed.

Lemma C10_empty_collection_witness :
  filter_queryset other_backend
    (request_of (Authenticated alice) [("parent", ""); ("q", "foo")])
    {| model := asset; rows := [] |} list_view
  = (Ok {| model := asset; rows := [] |}, []).
Proof.
  destruct (C10_empty_collection other_backend
              (request_of (Authenticated alice) [("parent", ""); ("q", "foo")])
              {| model := asset; rows := [] |} list_view "foo")
    as (_ & _ & _ & Hok & _); [vm_compute; reflexivity..|].
  apply Hok. right. vm_compute; reflexivity.
Defined.
End SearchClaims.

(** ** [KpiAssignedObjectPermissionsFilter] *)

Section AssignedPermissions.
Import KpiAssignedObjectPermissionsFilter.
Implicit Types (db : Db) (request : Request) (view : View).
Implicit Types (queryset : list ObjectPermission) (g : ObjectPermission).

Lemma assigned_subseteq db request queryset view :
  filter_queryset db request queryset view ⊆ queryset.
Proof.
  unfold filter_queryset.
  destruct (is_superuser _); [reflexivity|].
  destruct (Z.eqb _ _); apply List_filter_subseteq.
Qed.

Lemma elem_of_object_ids_of content_type u queryset n :
  In n (object_ids_of content_type u queryset) <->
  exists g, In g queryset /\ content_type_id g = content_type
            /\ op_user g = u /\ object_id g = n.
Proof.
  unfold object_ids_of. rewrite in_map_iff. split.
  - intros (g & <- & (Hg & Hb)%filter_In).
    apply andb_true_iff in Hb as [Hct%Z.eqb_eq Hu%Z.eqb_eq]. now exists g.
  - intros (g & Hg & Hct & Hu & <-). exists g. split; [reflexivity|].
    apply filter_In. split; [exact Hg|].
    apply andb_true_iff. split; now apply Z.eqb_eq.
Qed.

(** What an ordinary user is shown: the rows whose key is the key of a row
    whose [object_id] is that of a row addressed to the user.  The content
    type of the row addressed to the user is not compared with that of the
    row shown. *)
Lemma regular_user_sees db request queryset view g :
  let u := KpiObjectPermissionsFilter.effective_user db (user request) in
  is_superuser u = false ->
  user_pk u <> ANONYMOUS_USER_ID db ->
  In g (filter_queryset db request queryset view) <->
  In g queryset /\
  exists h mine,
    In h queryset /\ op_pk h = op_pk g /\
    In mine queryset /\ op_user mine = user_pk u /\
    object_id mine = object_id h.
Proof.
  intros u Hsuper Hanon. unfold filter_queryset. fold u.
  rewrite Hsuper. rewrite (proj2 (Z.eqb_neq _ _) Hanon).
  rewrite filter_In, existsb_exists.
  apply and_iff_compat_l. split.
  - intros (n & Hn & Heq%Z.eqb_eq).
    apply in_flat_map in Hn as (ct & _ & Hn).
    apply in_map_iff in Hn as (h & <- & (Hh & Hids)%filter_In).
    apply existsb_exists in Hids as (m & Hm & Hmh%Z.eqb_eq).
    apply elem_of_object_ids_of in Hm as (mine & Hmine & _ & Hu & <-).
    exists h, mine. repeat split; congruence.
  - intros (h & mine & Hh & Hpk & Hmine & Hu & Hobj).
    exists (op_pk h). split; [|now apply Z.eqb_eq].
    apply in_flat_map. exists (content_type_id mine). split.
    + apply list_elem_of_In, elem_of_remove_dups, list_elem_of_In.
      now apply in_map.
    + apply in_map, filter_In. split; [exact Hh|].
      apply existsb_exists. exists (object_id mine).
      split; [|now apply Z.eqb_eq].
      apply elem_of_object_ids_of. now exists mine.
Qed.

(** C5, at two grants on objects that share the number 5, alice's on an
    asset and bob's on a collection: alice is shown bob's grant, although
    she holds no grant on that collection.  The content types are walked
    through one by one, but the rows collected for a content type are all
    the rows with a matching [object_id], of whatever content type. *)
Theorem C5_cross_type_collision :
  filter_queryset db (request_of (Authenticated alice) []) assignments
    list_view = [alice_on_asset_5; bob_on_collection_5]
  /\ object_id bob_on_collection_5 = object_id alice_on_asset_5
  /\ content_type_id bob_on_collection_5 <> content_type_id alice_on_asset_5
  /\ existsb
       (fun g => Z.eqb (op_user g) (user_pk alice)
                 && Z.eqb (content_type_id g)
                      (content_type_id bob_on_collection_5)
                 && Z.eqb (object_id g) (object_id bob_on_collection_5))
       assignments = false.
Proof.
  repeat split; try (vm_compute; reflexivity). discriminate.
Qed.
End AssignedPermissions.

(** ** No filter adds rows *)

Section Narrowing.
Lemma object_permissions_subseteq db request queryset view r :
  KpiObjectPermissionsFilter.filter_queryset db request queryset view = Ok r ->
  rows r ⊆ rows queryset.
Proof.
  assert (Howned : forall permission,
    rows (KpiObjectPermissionsFilter.owned_and_explicitly_shared db
            (user request) permission queryset) ⊆ rows queryset).
  { intros permission. destruct (user request); cbn.
    - intros o Ho. inversion Ho.
    - apply get_objects_for_user_subseteq. }
  unfold KpiObjectPermissionsFilter.filter_queryset.
  destruct (request_is_superuser _ && _); [now intros [= <-]|].
  destruct (Py.strtobool _) as [all_public|e]; [|discriminate].
  unfold mbind, Result_bind.
  set (pub := KpiObjectPermissionsFilter.public db _ queryset).
  assert (Hpub : rows pub ⊆ rows queryset)
    by apply get_objects_for_user_subseteq.
  destruct (discoverable_total pub)
    as (disc & -> & _ & Hdisc).
  destruct (subscribed_total pub
              (KpiObjectPermissionsFilter.effective_user db (user request)))
    as (sub & -> & _ & Hsub).
  destruct (negb _); [|destruct all_public];
    intros [= <-] o [Ho|Ho]%elem_of_distinct_or;
    try exact (Howned _ o Ho).
  - exact (Hpub o Ho).
  - exact (Hpub o (Hdisc o Ho)).
  - exact (Hpub o (Hsub o Ho)).
Qed.

(** C4: whatever the principal and the base collection, what the
    permission filter, the search filter and the filter on assigned
    permissions return is drawn from the collection they were given. *)
Theorem C4_filters_only_narrow :
  (forall db request queryset view r,
     KpiObjectPermissionsFilter.filter_queryset db request queryset view
       = Ok r ->
     rows r ⊆ rows queryset)
  /\ (forall hs request queryset view r,
        (SearchFilter.filter_queryset hs request queryset view).1 = Ok r ->
        rows r ⊆ rows queryset)
  /\ (forall db request queryset view,
        KpiAssignedObjectPermissionsFilter.filter_queryset db request
          queryset view ⊆ queryset).
Proof.
  split; [exact object_permissions_subseteq|].
  split; [exact search_filter_subseteq|exact assigned_subseteq].
Qed.

Lemma C4_filters_only_narrow_witness :
  [private; hidden] ⊆ rows collections
  /\ rows assets ⊆ rows assets.
Proof.
  destruct C4_filters_only_narrow as (Hperm & Hsearch & _). split.
  - apply (Hperm db (request_of (Authenticated alice) []) collections
             list_view {| model := collection; rows := [private; hidden] |}).
    vm_compute; reflexivity.
  - apply (Hsearch empty_index
             (request_of (Authenticated alice) [("q", "foo")]) assets
             list_view assets).
    vm_compute; reflexivity.
Defined.
End Narrowing.

(** ** Sorting and grouping *)

Section SortedFacts.
Context {A K : Type} (ltb : K -> K -> bool) (key : A -> K).
Context (le : K -> K -> Prop).
Hypothesis ltb_le : forall a b, ltb a b = true -> le a b.
Hypothesis not_ltb_le : forall a b, ltb a b = false -> le b a.

Local Abbreviation ordered := (Sorted.by_key le key).

Lemma insert_Permutation x l :
  Permutation (Sorted.insert ltb key x l) (x :: l).
Proof.
  induction l as [|y l IH]; cbn; [reflexivity|].
  destruct (ltb (key y) (key x)); [|reflexivity].
  rewrite IH. apply perm_swap.
Qed.

Lemma sorted_Permutation l : Permutation (Sorted.sorted ltb key l) l.
Proof.
  induction l as [|x l IH]; cbn; [reflexivity|].
  rewrite insert_Permutation. now apply perm_skip.
Qed.

Lemma insert_HdRel x y l :
  ordered y x -> HdRel ordered y l ->
  HdRel ordered y (Sorted.insert ltb key x l).
Proof.
  intros Hyx Hhd. destruct l as [|z l]; cbn; [now constructor|].
  destruct (ltb (key z) (key x)); constructor; [|exact Hyx].
  now inversion Hhd.
Qed.

Lemma insert_Sorted x l :
  Sorted ordered l -> Sorted ordered (Sorted.insert ltb key x l).
Proof.
  induction 1 as [|y l Hsorted IH Hhd]; cbn.
  - repeat constructor.
  - destruct (ltb (key y) (key x)) eqn:Hlt.
    + constructor; [exact IH|].
      apply insert_HdRel; [|exact Hhd]. now apply ltb_le.
    + constructor; [now constructor|].
      constructor. now apply not_ltb_le.
Qed.

Lemma sorted_Sorted l : Sorted ordered (Sorted.sorted ltb key l).
Proof.
  induction l as [|x l IH]; cbn; [constructor|]. now apply insert_Sorted.
Qed.

(** Stability: a selection that never holds of both an element and one of
    strictly smaller key comes out in the order it went in. *)
Lemma sorted_stable (P : A -> bool) l :
  (forall x y, ltb (key y) (key x) = true -> P x = true -> P y = false) ->
  List.filter P (Sorted.sorted ltb key l) = List.filter P l.
Proof.
  intros HP.
  assert (Hins : forall x l',
    List.filter P (Sorted.insert ltb key x l') = List.filter P (x :: l')).
  { intros x l'. induction l' as [|y l' IH]; [reflexivity|].
    cbn [Sorted.insert].
    destruct (ltb (key y) (key x)) eqn:Hlt; [|reflexivity].
    cbn [List.filter] in *. rewrite IH.
    destruct (P x) eqn:Hx; [|reflexivity].
    now rewrite (HP x y Hlt Hx). }
  induction l as [|x l IH]; [reflexivity|].
  cbn [Sorted.sorted foldr]. fold (Sorted.sorted ltb key l).
  rewrite Hins. cbn [List.filter]. now rewrite IH.
Qed.
End SortedFacts.

Section GroupbyFacts.
Context {A K : Type} (key : A -> K) (eqb : K -> K -> bool).

(** A group and what it leaves make up the list. *)
Lemma grouper_app tgtkey l :
  ((Groupby.grouper key eqb tgtkey l).1 ++ (Groupby.grouper key eqb tgtkey l).2
   = l)%list.
Proof.
  induction l as [|x l IH]; cbn; [reflexivity|].
  destruct (eqb (key x) tgtkey); [|reflexivity].
  destruct (Groupby.grouper key eqb tgtkey l) as [group rest]. cbn in *.
  now rewrite IH.
Qed.

Lemma grouper_group tgtkey l :
  Forall (fun x => eqb (key x) tgtkey = true)
    (Groupby.grouper key eqb tgtkey l).1.
Proof.
  induction l as [|x l IH]; cbn; [constructor|].
  destruct (eqb (key x) tgtkey) eqn:Hx; [|constructor].
  destruct (Groupby.grouper key eqb tgtkey l) as [group rest]. cbn in *.
  now constructor.
Qed.

(** The value that ends a group does not equal the target. *)
Lemma grouper_rest tgtkey l :
  match (Groupby.grouper key eqb tgtkey l).2 with
  | [] => True
  | x :: _ => eqb (key x) tgtkey = false
  end.
Proof.
  induction l as [|x l IH]; cbn; [exact I|].
  destruct (eqb (key x) tgtkey) eqn:Hx; [|exact Hx].
  now destruct (Groupby.grouper key eqb tgtkey l) as [group rest].
Qed.

(** [next] passes over nothing when the value that ended the group still
    differs from the target. *)
Lemma skip_head tgtkey l :
  match l with [] => True | x :: _ => eqb (key x) tgtkey = false end ->
  Groupby.skip key eqb tgtkey l = l.
Proof. destruct l as [|x l]; [reflexivity|]. cbn. now intros ->. Qed.

Lemma skip_suffix tgtkey l :
  exists passed, l = (passed ++ Groupby.skip key eqb tgtkey l)%list.
Proof.
  induction l as [|x l [passed IH]]; [now exists []|]. cbn.
  destruct (eqb (key x) tgtkey); [|now exists []].
  exists (x :: passed). cbn. now rewrite <- IH.
Qed.
End GroupbyFacts.

(** ** [AttachmentFilter] *)

Section Attachments.
Import AttachmentFilter.
Implicit Types (request : Request) (view : View) (store : Store).
Implicit Types (queryset : list Attachment).

Lemma order_by_pk_Permutation sort queryset :
  Permutation (order_by_pk sort queryset) queryset.
Proof.
  unfold order_by_pk. destruct (String.eqb sort "-pk");
    apply sorted_Permutation.
Qed.

Lemma by_question_Permutation request queryset :
  Permutation (by_question request queryset) (of_type request queryset).
Proof.
  unfold by_question. rewrite sorted_Permutation.
  apply order_by_pk_Permutation.
Qed.

Lemma by_submission_Permutation request queryset :
  Permutation (by_submission request queryset) (of_type request queryset).
Proof.
  unfold by_submission. rewrite sorted_Permutation.
  apply order_by_pk_Permutation.
Qed.

Lemma by_question_Sorted request queryset :
  Sorted (fun a b => question_index a <= question_index b)
    (by_question request queryset).
Proof.
  apply (sorted_Sorted Z.ltb question_index Z.le); intros a b.
  - intros H%Z.ltb_lt. lia.
  - intros H%Z.ltb_ge. lia.
Qed.

Lemma by_question_stable request queryset k :
  List.filter (fun a => Z.eqb (question_index a) k)
    (by_question request queryset)
  = List.filter (fun a => Z.eqb (question_index a) k)
      (order_by_pk (sort_param request) (of_type request queryset)).
Proof.
  apply sorted_stable. intros x y Hlt%Z.ltb_lt Hx%Z.eqb_eq.
  apply Z.eqb_neq. lia.
Qed.

Lemma by_submission_Sorted request queryset :
  Sorted
    (fun a b =>
       instance_id (instance a) < instance_id (instance b)
       \/ (instance_id (instance a) = instance_id (instance b)
           /\ question_index a <= question_index b))
    (by_submission request queryset).
Proof.
  apply (sorted_Sorted Sorted.pair_ltb
           (fun att => (instance_id (instance att), question_index att))
           (fun a b => a.1 < b.1 \/ (a.1 = b.1 /\ a.2 <= b.2)));
    intros [a1 a2] [b1 b2]; unfold Sorted.pair_ltb; cbn.
  - intros [H%Z.ltb_lt|[H1%Z.eqb_eq H2%Z.ltb_lt]%andb_true_iff]%orb_true_iff;
      lia.
  - intros [H1%Z.ltb_ge H2]%orb_false_iff.
    apply andb_false_iff in H2 as [H2%Z.eqb_neq|H2%Z.ltb_ge]; lia.
Qed.

Lemma order_by_question request :
  query_params request !! "group_by" = Some "question" ->
  order_by_param request = Some "question".
Proof. intros H. unfold order_by_param. now rewrite H. Qed.

Lemma order_by_submission request :
  query_params request !! "group_by" = Some "submission" ->
  order_by_param request = Some "submission".
Proof. intros H. unfold order_by_param. now rewrite H. Qed.

Lemma grouped_by_question request queryset view store :
  query_params request !! "group_by" = Some "question" ->
  filter_queryset request queryset view store
  = grouped question_key question_key_eqb (question_row (all_param request))
      (by_question request queryset) store.
Proof.
  intros H. unfold filter_queryset.
  now rewrite (order_by_question request H), H.
Qed.

Lemma grouped_by_submission request queryset view store :
  query_params request !! "group_by" = Some "submission" ->
  filter_queryset request queryset view store
  = grouped submission_key submission_key_eqb submission_row
      (by_submission request queryset) store.
Proof.
  intros H. unfold filter_queryset.
  now rewrite (order_by_submission request H), H.
Qed.

(** The [all] parameter plays no part when grouping by submission. *)
Lemma submission_ignores_all request queryset view store v :
  query_params request !! "group_by" = Some "submission" ->
  filter_queryset
    {| user := user request;
       query_params := <["all" := v]> (query_params request) |}
    queryset view store
  = filter_queryset request queryset view store.
Proof.
  intros H.
  rewrite !grouped_by_submission;
    [|exact H|cbn; now rewrite lookup_insert_ne by discriminate].
  unfold by_submission, sort_param, of_type. cbn.
  now rewrite !lookup_insert_ne by discriminate.
Qed.

Lemma deref_insert_eq store r d : deref (<[r := d]> store) r = d.
Proof. unfold deref. now rewrite lookup_insert_eq. Qed.

Lemma deref_insert_ne store r r' d :
  r <> r' -> deref (<[r := d]> store) r' = deref store r'.
Proof. intros H. unfold deref. now rewrite lookup_insert_ne. Qed.

(** The two writes of a round: into the object that the key names, or into
    a new dictionary. *)
Lemma write_row store row index atts :
  let written :=
    <["index" := CJson (JInt (Z.of_nat index))]>
      (<["attachments" := CAttachments atts]> (row_dict store row)) in
  (let '(row', store') := setitem row "attachments" (CAttachments atts) store in
   setitem row' "index" (CJson (JInt (Z.of_nat index))) store')
  = match row with
    | Stored r => (Stored r, <[r := written]> store)
    | New _ => (New written, store)
    end.
Proof.
  destruct row as [r|d]; cbn; [|reflexivity].
  now rewrite deref_insert_eq, insert_insert_eq.
Qed.
End Attachments.

Lemma omap_cons_eq {A B : Type} (f : A -> option B) (x : A) (l : list A) :
  omap f (x :: l)
  = match f x with Some y => y :: omap f l | None => omap f l end.
Proof. reflexivity. Qed.

Section Rounds.
Import AttachmentFilter.
Context {K : Type} (key : Attachment -> K) (eqb : Store -> K -> K -> bool).
Context (ref : K -> option Ref).
Context (body : nat -> K -> list Attachment -> Store -> list Row * Store).

Local Abbreviation refs := (fun att => ref (key att)).

(** A round appends nothing and writes nothing, or it writes the group
    into the object that the key names, or into a new dictionary, and
    appends that. *)
Hypothesis body_spec : forall index k atts store,
  body index k atts store = ([], store)
  \/ (exists r d,
        ref k = Some r /\ d !! "attachments" = Some (CAttachments atts)
        /\ body index k atts store = ([Stored r], <[r := d]> store))
  \/ (exists d,
        d !! "attachments" = Some (CAttachments atts)
        /\ body index k atts store = ([New d], store)).

Lemma skip_In store tgtkey l a :
  In a (Groupby.skip key (eqb store) tgtkey l) -> In a l.
Proof.
  destruct (skip_suffix key (eqb store) tgtkey l) as [passed Hl].
  intros Ha. rewrite Hl. apply in_or_app. now right.
Qed.

Lemma skip_length store tgtkey l :
  (length (Groupby.skip key (eqb store) tgtkey l) <= length l)%nat.
Proof.
  destruct (skip_suffix key (eqb store) tgtkey l) as [passed Hl].
  rewrite Hl at 2. rewrite length_app. lia.
Qed.

(** The attachments of the rows are attachments of the list, whatever the
    objects held and however they are shared. *)
Lemma rows_within (L : list Attachment) fuel index l store :
  (forall a, In a l -> In a L) ->
  let answer := rows key eqb body fuel index l store in
  (forall row a,
     In row answer.1 -> In a (row_attachments (row_dict answer.2 row)) ->
     In a L)
  /\ (forall r,
        (forall a, In a (row_attachments (deref store r)) -> In a L) ->
        forall a, In a (row_attachments (deref answer.2 r)) -> In a L).
Proof.
  revert index l store. induction fuel as [|fuel IH]; intros index l store Hl.
  { cbn. split; [intros row a []|auto]. }
  destruct l as [|x l]; [cbn; split; [intros row a []|auto]|].
  cbn [rows].
  pose proof (grouper_app key (eqb store) (key x) l) as Happ.
  destruct (Groupby.grouper key (eqb store) (key x) l) as [group rest].
  cbn [fst snd] in Happ.
  assert (Hrest : forall s a,
    In a (Groupby.skip key (eqb s) (key x) rest) -> In a L).
  { intros s a Ha%skip_In. apply Hl. right. rewrite <- Happ.
    apply in_or_app. now right. }
  assert (Hwritten : forall d : Dict,
    d !! "attachments" = Some (CAttachments (x :: group)) ->
    forall a, In a (row_attachments d) -> In a L).
  { intros d Hd a. unfold row_attachments. rewrite Hd.
    intros [<-|Ha]; apply Hl; [now left|right].
    rewrite <- Happ. apply in_or_app. now left. }
  destruct (body_spec index (key x) (x :: group) store)
    as [Hb|[(r & d & Hr & Hd & Hb)|(d & Hd & Hb)]]; rewrite Hb.
  - specialize (IH (S index) _ store (Hrest store)).
    destruct (rows key eqb body fuel (S index) _ store) as [result store'].
    exact IH.
  - specialize (IH (S index) _ (<[r := d]> store) (Hrest (<[r := d]> store))).
    destruct (rows key eqb body fuel (S index) _ (<[r := d]> store))
      as [result store'].
    cbn [fst snd app] in *. destruct IH as [IHrows IHstore].
    assert (Hr' : forall a, In a (row_attachments (deref store' r)) -> In a L).
    { apply IHstore. rewrite deref_insert_eq. now apply Hwritten. }
    split.
    + intros row a [<-|Hrow]; [apply Hr'|now apply IHrows].
    + intros r' Hold. apply IHstore.
      destruct (decide (r = r')) as [<-|Hne].
      * rewrite deref_insert_eq. now apply Hwritten.
      * now rewrite deref_insert_ne.
  - specialize (IH (S index) _ store (Hrest store)).
    destruct (rows key eqb body fuel (S index) _ store) as [result store'].
    cbn [fst snd app] in *. destruct IH as [IHrows IHstore].
    split; [|exact IHstore].
    intros row a [<-|Hrow]; [now apply Hwritten|now apply IHrows].
Qed.

(** Fuel beyond the length of the list changes nothing. *)
Lemma rows_fuel fuel fuel' index l store :
  (length l <= fuel)%nat -> (length l <= fuel')%nat ->
  rows key eqb body fuel index l store = rows key eqb body fuel' index l store.
Proof.
  revert fuel' index l store.
  induction fuel as [|fuel IH]; intros fuel' index l store Hfuel Hfuel'.
  { destruct l; [|cbn in Hfuel; lia]. now destruct fuel'. }
  destruct l as [|x l]; [now destruct fuel'|].
  destruct fuel' as [|fuel']; [cbn in Hfuel'; lia|].
  cbn [rows length] in *.
  pose proof (grouper_app key (eqb store) (key x) l) as Happ.
  destruct (Groupby.grouper key (eqb store) (key x) l) as [group rest].
  cbn [fst snd] in Happ.
  destruct (body index (key x) (x :: group) store) as [row store1].
  rewrite (IH fuel'); [reflexivity| |].
  all: etransitivity; [apply skip_length|].
  all: rewrite <- Happ, length_app in *; lia.
Qed.

(** When every round appends its object, no two values of the list have
    their key name one object, and these objects hold no attachments
    beforehand, the rows carry the list, group after group. *)
Hypothesis body_keeps : forall index k atts store,
  (body index k atts store).1 <> [].

Hypothesis eqb_written : forall store r (d : Dict) a b,
  ref b = Some r -> ref a <> Some r ->
  (forall r', ref a = Some r' -> deref store r' !! "attachments" = None) ->
  is_Some (d !! "attachments") ->
  eqb (<[r := d]> store) a b = false.

Lemma rows_keep_all fuel index l store :
  (length l <= fuel)%nat ->
  NoDup (omap refs l) ->
  unwritten store (omap refs l) ->
  let answer := rows key eqb body fuel index l store in
  concat (map (fun row => row_attachments (row_dict answer.2 row)) answer.1)
  = l
  /\ forall r, r ∉ omap refs l -> deref answer.2 r = deref store r.
Proof.
  revert index l store.
  induction fuel as [|fuel IH]; intros index l store Hfuel Hdup Hnew.
  { destruct l; [|cbn in Hfuel; lia]. now split. }
  destruct l as [|x l]; [now split|].
  cbn [rows length] in *.
  pose proof (grouper_app key (eqb store) (key x) l) as Happ.
  pose proof (grouper_rest key (eqb store) (key x) l) as Hstop.
  destruct (Groupby.grouper key (eqb store) (key x) l) as [group rest].
  cbn [fst snd] in Happ, Hstop.
  assert (Hlen : (length rest <= fuel)%nat).
  { rewrite <- Happ, length_app in Hfuel. lia. }
  assert (Hsub : forall r, r ∈ omap refs rest -> r ∈ omap refs l).
  { intros r Hr. rewrite <- Happ, omap_app, elem_of_app. now right. }
  assert (Hdup_l : NoDup (omap refs l)).
  { rewrite omap_cons_eq in Hdup.
    destruct (ref (key x)); [now apply NoDup_cons in Hdup as [_ ?]|exact Hdup]. }
  assert (Hdup_rest : NoDup (omap refs rest)).
  { rewrite <- Happ, omap_app in Hdup_l. now apply NoDup_app in Hdup_l as (_ & _ & ?). }
  assert (Hnew_l : unwritten store (omap refs l)).
  { unfold unwritten in *. rewrite omap_cons_eq in Hnew.
    destruct (ref (key x)); [now apply Forall_cons in Hnew as [_ ?]|exact Hnew]. }
  assert (Hnew_rest : unwritten store (omap refs rest)).
  { unfold unwritten in *. rewrite <- Happ, omap_app in Hnew_l.
    now apply Forall_app in Hnew_l as [_ ?]. }
  pose proof (body_keeps index (key x) (x :: group) store) as Hkeep.
  destruct (body_spec index (key x) (x :: group) store)
    as [Hb|[(r & d & Hr & Hd & Hb)|(d & Hd & Hb)]]; rewrite Hb in *;
    [now cbn in Hkeep| |].
  - assert (Hfresh : r ∉ omap refs l).
    { rewrite omap_cons_eq, Hr in Hdup.
      now apply NoDup_cons in Hdup as [? _]. }
    rewrite skip_head; cycle 1.
    { destruct rest as [|y rest']; [exact I|].
      apply eqb_written; [exact Hr| | |now rewrite Hd].
      - intros Hy. apply Hfresh, Hsub. rewrite omap_cons_eq, Hy. now left.
      - intros r' Hy. unfold unwritten in Hnew_rest.
        rewrite omap_cons_eq, Hy in Hnew_rest.
        now apply Forall_cons in Hnew_rest as [? _]. }
    specialize (IH (S index) rest (<[r := d]> store) Hlen Hdup_rest).
    destruct (rows key eqb body fuel (S index) rest (<[r := d]> store))
      as [result store'].
    cbn [fst snd app map concat row_dict] in *.
    destruct IH as [IHrows IHstore].
    { unfold unwritten in *. rewrite Forall_forall in *. intros r' Hr'.
      rewrite deref_insert_ne; [now apply Hnew_rest|].
      intros <-. now apply Hfresh, Hsub. }
    split.
    + rewrite IHrows, IHstore, deref_insert_eq by (intros ?%Hsub; contradiction).
      unfold row_attachments at 1. rewrite Hd. cbn. now rewrite Happ.
    + intros r' Hr'. rewrite omap_cons_eq, Hr in Hr'.
      apply not_elem_of_cons in Hr' as [Hne Hr'].
      rewrite IHstore by (intros ?%Hsub; contradiction).
      now rewrite deref_insert_ne.
  - rewrite skip_head by exact Hstop.
    specialize (IH (S index) rest store Hlen Hdup_rest Hnew_rest).
    destruct (rows key eqb body fuel (S index) rest store) as [result store'].
    cbn [fst snd app map concat row_dict] in *.
    destruct IH as [IHrows IHstore].
    split.
    + rewrite IHrows. unfold row_attachments at 1. rewrite Hd. cbn.
      now rewrite Happ.
    + intros r' Hr'. apply IHstore. intros Hin%Hsub. apply Hr'.
      rewrite omap_cons_eq. destruct (ref (key x)); [now right|exact Hin].
Qed.
End Rounds.

Section Bodies.
Import AttachmentFilter.
Implicit Types (store : Store) (atts : list Attachment).

Lemma dict_or_Stored store d fallback r :
  dict_or store d fallback = Stored r -> d = Some r.
Proof.
  unfold dict_or. destruct d as [r'|]; [|discriminate].
  case bool_decide; [discriminate|]. now intros [= ->].
Qed.

Lemma written_attachments index atts (d : Dict) :
  <["index" := CJson (JInt (Z.of_nat index))]>
    (<["attachments" := CAttachments atts]> d) !! "attachments"
  = Some (CAttachments atts).
Proof.
  rewrite lookup_insert_ne by discriminate. apply lookup_insert_eq.
Qed.

(** A round of the loop over the questions leaves the group out, or writes
    it into the dictionary of the question, or into a new one. *)
Lemma question_row_spec all index qid atts store :
  question_row all index qid atts store = ([], store)
  \/ (exists r d,
        qid.2 = Some r /\ d !! "attachments" = Some (CAttachments atts)
        /\ question_row all index qid atts store
           = ([Stored r], <[r := d]> store))
  \/ (exists d,
        d !! "attachments" = Some (CAttachments atts)
        /\ question_row all index qid atts store = ([New d], store)).
Proof.
  unfold question_row.
  destruct (all || _); [|now left]. right.
  destruct (dict_or store qid.2 _) as [r|d] eqn:Hrow; cbn.
  - left. apply dict_or_Stored in Hrow. eexists r, _.
    split; [exact Hrow|]. split; [apply written_attachments|].
    now rewrite deref_insert_eq, insert_insert_eq.
  - right. eexists. split; [apply written_attachments|reflexivity].
Qed.

Lemma submission_row_spec index sid atts store :
  (exists r d,
     sid.2 = Some r /\ d !! "attachments" = Some (CAttachments atts)
     /\ submission_row index sid atts store = ([Stored r], <[r := d]> store))
  \/ (exists d,
        d !! "attachments" = Some (CAttachments atts)
        /\ submission_row index sid atts store = ([New d], store)).
Proof.
  unfold submission_row.
  destruct (dict_or store sid.2 _) as [r|d] eqn:Hrow; cbn.
  - left. apply dict_or_Stored in Hrow. eexists r, _.
    split; [exact Hrow|]. split; [apply written_attachments|].
    now rewrite deref_insert_eq, insert_insert_eq.
  - right. eexists. split; [apply written_attachments|reflexivity].
Qed.

(** A group of questions is left out exactly when [all] is off and the
    dictionary of the row does not have [in_latest_version] true. *)
Lemma question_row_left_out all index qid atts store :
  let question :=
    dict_or store qid.2 {[ "number" := CJson (JInt qid.1) ]} in
  (question_row all index qid atts store).1 = [] <->
  all = false
  /\ truthy (row_dict store question !! "in_latest_version") = false.
Proof.
  cbn zeta. unfold question_row.
  destruct all, (truthy _); cbn [orb andb negb];
    try (destruct (dict_or store qid.2 _); cbn);
    split; try discriminate; try tauto; intros []; discriminate.
Qed.

Lemma submission_row_keeps index sid atts store :
  (submission_row index sid atts store).1 <> [].
Proof.
  destruct (submission_row_spec index sid atts store)
    as [(r & d & _ & _ & ->)|(d & _ & ->)]; discriminate.
Qed.

(** Once a dictionary holds attachments it differs from every other object
    that holds none. *)
Lemma dict_eqb_written store r (d : Dict) a :
  a <> Some r ->
  (forall r', a = Some r' -> deref store r' !! "attachments" = None) ->
  is_Some (d !! "attachments") ->
  dict_eqb (<[r := d]> store) a (Some r) = false.
Proof.
  intros Hne Hnew [c Hc]. unfold dict_eqb. apply bool_decide_eq_false_2.
  destruct a as [r'|]; [|discriminate]. cbn. intros [= Heq].
  apply (f_equal (fun m => m !! "attachments")) in Heq.
  rewrite !lookup_fmap, deref_insert_eq, Hc in Heq.
  rewrite deref_insert_ne, (Hnew r' eq_refl) in Heq by congruence.
  discriminate.
Qed.

Lemma question_key_eqb_written store r (d : Dict) (a b : Z * option Ref) :
  b.2 = Some r -> a.2 <> Some r ->
  (forall r', a.2 = Some r' -> deref store r' !! "attachments" = None) ->
  is_Some (d !! "attachments") ->
  question_key_eqb (<[r := d]> store) a b = false.
Proof.
  intros Hb Ha Hnew Hd. unfold question_key_eqb.
  rewrite Hb, dict_eqb_written by assumption. apply andb_false_r.
Qed.

Lemma submission_key_eqb_written store r (d : Dict)
    (a b : string * option Ref) :
  b.2 = Some r -> a.2 <> Some r ->
  (forall r', a.2 = Some r' -> deref store r' !! "attachments" = None) ->
  is_Some (d !! "attachments") ->
  submission_key_eqb (<[r := d]> store) a b = false.
Proof.
  intros Hb Ha Hnew Hd. unfold submission_key_eqb.
  rewrite Hb, dict_eqb_written by assumption. apply andb_false_r.
Qed.

Lemma own_objects_In (object : Attachment -> option Ref) store l l' :
  (forall a, In a l' -> In a l) ->
  NoDup (omap object l') ->
  own_objects object store l -> own_objects object store l'.
Proof.
  intros Hin Hdup [_ Hnew]. split; [exact Hdup|].
  unfold unwritten in *. rewrite Forall_forall in *.
  intros r (a & Ha & Hr)%list_elem_of_omap. apply Hnew.
  apply list_elem_of_omap. exists a. split; [|exact Hr].
  apply list_elem_of_In, Hin. now apply list_elem_of_In.
Qed.

Lemma omap_filter_NoDup {A B : Type} (f : A -> option B) (p : A -> bool) l :
  NoDup (omap f l) -> NoDup (omap f (List.filter p l)).
Proof.
  induction l as [|x l IH]; [easy|]. rewrite omap_cons_eq. cbn [List.filter].
  intros Hdup.
  assert (Hl : NoDup (omap f l)).
  { destruct (f x); [now apply NoDup_cons in Hdup as [_ ?]|exact Hdup]. }
  destruct (p x); [|now apply IH]. rewrite omap_cons_eq.
  destruct (f x) as [y|]; [|now apply IH].
  apply NoDup_cons in Hdup as [Hy _]. apply NoDup_cons. split; [|now apply IH].
  intros (a & Ha & Hfa)%list_elem_of_omap. apply Hy.
  apply list_elem_of_omap. exists a. split; [|exact Hfa].
  apply list_elem_of_In. apply list_elem_of_In in Ha.
  now apply filter_In in Ha as [? _].
Qed.

Lemma own_objects_of_type object store request queryset :
  own_objects object store queryset ->
  own_objects object store (of_type request queryset).
Proof.
  unfold of_type. destruct (nonempty _); [|easy]. intros Hown.
  apply (own_objects_In object store queryset); [|now apply omap_filter_NoDup, Hown|exact Hown].
  now intros a [? _]%filter_In.
Qed.

Lemma own_objects_Permutation object store l l' :
  Permutation l' l -> own_objects object store l -> own_objects object store l'.
Proof.
  intros Hperm Hown.
  apply (own_objects_In object store l); [| |exact Hown].
  - intros a. now apply Permutation_in.
  - rewrite Hperm. apply Hown.
Qed.
End Bodies.

Section AttachmentClaims.
Import AttachmentFilter.

(** C9, at three attachments of question number 1, the first and the third
    of which have one question record, a single dictionary, and the second
    another.  The sort is by [question_index] alone and leaves them in the
    order of their primary keys, which no order on the keys
    [(question_index, question)] that tells unequal keys apart has sorted.
    [groupby] then yields three groups, and the dictionary of the first, to
    which the third comes back, is written twice and appended twice: the
    answer has two rows for one key, both of them the one object, which
    holds the third attachment under the index 2, and the first attachment
    is in no row.  When the third attachment has a record of its own that
    reads the same, the question is in two rows all the same.  Grouped by
    submission, the instances 1 and 3, which share their uuid and
    submission, get a row each.  The sort that the grouping rests on is
    coarser than the keys of the groups. *)
Theorem C9_question_in_two_rows :
  let by_q := request_of AnonymousUser [("group_by", "question")] in
  let by_s := request_of AnonymousUser [("group_by", "submission")] in
  let answer := filter_queryset by_q attachments list_view questions in
  let row (data : Dict) (atts : list Attachment) (index : Z) : Dict :=
    <["index" := CJson (JInt index)]>
      (<["attachments" := CAttachments atts]> data) in
  by_question by_q attachments = [photo_1; sketch_2; photo_3]
  /\ question_key photo_1 = question_key photo_3
  /\ question_key_eqb questions (question_key sketch_2) (question_key photo_1)
     = false
  /\ ~ (exists le : Z * option Ref -> Z * option Ref -> Prop,
          (forall a b, le a b -> le b a -> question_key_eqb questions a b = true)
          /\ Sorted (fun a b => le (question_key a) (question_key b))
               (by_question by_q attachments))
  /\ answer.1 = Rows [Stored 1; Stored 2; Stored 1]
  /\ output_rows answer
     = [row question_a [photo_3] 2; row question_b [sketch_2] 1;
        row question_a [photo_3] 2]
  /\ output_attachments answer = [photo_3; sketch_2; photo_3]
  /\ output_rows
       (filter_queryset by_q attachments_apart list_view questions)
     = [row question_a [photo_1] 0; row question_b [sketch_2] 1;
        row question_a [photo_3_copy] 2]
  /\ submission_key photo_1 = submission_key photo_3
  /\ output_rows (filter_queryset by_s attachments list_view questions)
     = [row {[ "instance_uuid" := CJson (JStr "u1") ]} [photo_1] 0;
        row {[ "instance_uuid" := CJson (JStr "u2") ]} [sketch_2] 1;
        row {[ "instance_uuid" := CJson (JStr "u1") ]} [photo_3] 2].
Proof.
  intros by_q by_s answer row.
  assert (Hsorted : by_question by_q attachments
                    = [photo_1; sketch_2; photo_3])
    by (vm_compute; reflexivity).
  split; [exact Hsorted|]. split; [reflexivity|].
  split; [vm_compute; reflexivity|]. split.
  { intros (le & Hanti & Hle). rewrite Hsorted in Hle.
    apply Sorted_inv in Hle as [Hle H12]. apply HdRel_inv in H12.
    apply Sorted_inv in Hle as [_ H23]. apply HdRel_inv in H23.
    specialize (Hanti _ _ H12 H23). vm_compute in Hanti. discriminate. }
  repeat split; vm_compute; reflexivity.
Qed.
End AttachmentClaims.


(** * Further properties *)

(** ** The permission filter, row by row *)

Section ObjectPermissionsMore.
Import KpiObjectPermissionsFilter.
Implicit Types (db : Db) (request : Request) (view : View).

Lemma elem_of_List_filter {A : Type} (f : A -> bool) (l : list A) (x : A) :
  x ∈ List.filter f l <-> x ∈ l /\ f x = true.
Proof. now rewrite !list_elem_of_In, filter_In. Qed.

(** The chain model, parent, nothing selects rows one by one, by a test
    that depends on the model alone. *)
Lemma fallback_chain_selects kw1 kw2 m :
  exists sel : Obj -> bool,
    forall rows0,
      try_except (QS.filter kw1 {| model := m; rows := rows0 |}) FieldError
        (try_except (QS.filter kw2 {| model := m; rows := rows0 |}) FieldError
           (Ok (QS.none {| model := m; rows := rows0 |})))
      = Ok {| model := m; rows := List.filter sel rows0 |}.
Proof.
  destruct (forallb (fun kw => resolves m (lookup_path kw)) kw1) eqn:H1;
    [|destruct (forallb (fun kw => resolves m (lookup_path kw)) kw2) eqn:H2].
  - exists (fun o => forallb (fun kw => holds kw o) kw1). intros rows0.
    rewrite try_filter, filter_unfold. cbn. now rewrite H1.
  - exists (fun o => forallb (fun kw => holds kw o) kw2). intros rows0.
    rewrite !try_filter, !filter_unfold. cbn. now rewrite H1, H2.
  - exists (fun _ => false). intros rows0.
    rewrite !try_filter, !filter_unfold. cbn. rewrite H1, H2.
    unfold QS.none. cbn. f_equal. f_equal.
    induction rows0; [reflexivity|assumption].
Qed.

(** Whether the filter raises depends on the request alone, and when it
    answers it keeps the rows that pass a test which looks at one row at a
    time. *)
Lemma permission_filter_selects db request view m :
  (exists e, forall rows0,
      filter_queryset db request {| model := m; rows := rows0 |} view
      = Raise e)
  \/ (exists sel : Obj -> bool, forall rows0,
        exists r,
          filter_queryset db request {| model := m; rows := rows0 |} view
          = Ok r
          /\ model r = m
          /\ forall o, o ∈ rows r <-> (o ∈ rows0 /\ sel o = true)).
Proof.
  unfold filter_queryset.
  destruct (request_is_superuser (user request) && negb (is_list view)).
  { right. exists (fun _ => true). intros rows0. eexists.
    split; [reflexivity|]. split; [reflexivity|]. cbn. tauto. }
  destruct (Py.strtobool _) as [all_public|e]; [|left; now exists e].
  right. unfold mbind, Result_bind. cbn [model].
  set (permission := perm_format m).
  assert (Howned : exists own : Obj -> bool, forall rows0,
    rows (owned_and_explicitly_shared db (user request) permission
            {| model := m; rows := rows0 |}) = List.filter own rows0).
  { destruct (user request) as [|u]; cbn.
    - exists (fun _ => false). intros rows0.
      induction rows0; [reflexivity|assumption].
    - now exists (granted db u permission m). }
  destruct Howned as (own & Hown).
  set (anon := granted db (get_anonymous_user db) permission m).
  destruct (fallback_chain_selects [discoverable_when_public_eq true]
              [parent__discoverable_when_public_eq true] m) as (dsel & Hd).
  destruct (fallback_chain_selects
              [usercollectionsubscription__user_eq
                 (user_pk (effective_user db (user request)))]
              [parent__usercollectionsubscription__user_eq
                 (user_pk (effective_user db (user request)))] m)
    as (ssel & Hs).
  assert (Hmodel : forall rows0,
    model (owned_and_explicitly_shared db (user request) permission
             {| model := m; rows := rows0 |}) = m)
    by (intros rows0; now destruct (user request)).
  destruct (negb (is_list view)); [|destruct all_public].
  - exists (fun o => own o || anon o). intros rows0. eexists.
    split; [reflexivity|]. split; [apply Hmodel|]. intros o.
    rewrite elem_of_distinct_or, Hown. unfold public, get_objects_for_user.
    cbn. rewrite !elem_of_List_filter, orb_true_iff. tauto.
  - exists (fun o => own o || (anon o && dsel o)). intros rows0.
    unfold discoverable, public, get_objects_for_user. cbn [model rows].
    rewrite Hd. eexists. split; [reflexivity|]. split; [apply Hmodel|].
    intros o. rewrite elem_of_distinct_or, Hown. cbn.
    rewrite !elem_of_List_filter, orb_true_iff, andb_true_iff. tauto.
  - exists (fun o => own o || (anon o && ssel o)). intros rows0.
    unfold discoverable, subscribed, public, get_objects_for_user.
    cbn [model rows]. rewrite Hd, Hs. eexists.
    split; [reflexivity|]. split; [apply Hmodel|].
    intros o. rewrite elem_of_distinct_or, Hown. cbn.
    rewrite !elem_of_List_filter, orb_true_iff, andb_true_iff. tauto.
Qed.

(** Filtering what the filter returned changes nothing: the same request
    answers with the same rows. *)
Theorem permission_filter_idempotent db request queryset view r :
  filter_queryset db request queryset view = Ok r ->
  exists r',
    filter_queryset db request r view = Ok r'
    /\ model r' = model r
    /\ forall o, o ∈ rows r' <-> o ∈ rows r.
Proof.
  intros Hr. destruct queryset as [m rows0].
  destruct (permission_filter_selects db request view m)
    as [(e & Hraise)|(sel & Hsel)].
  { rewrite Hraise in Hr. discriminate. }
  destruct (Hsel rows0) as (r0 & Hr0 & Hm & Hrows).
  rewrite Hr in Hr0. injection Hr0 as <-.
  destruct r as [m' rows1]. cbn in Hm. subst m'.
  destruct (Hsel rows1) as (r' & Hr' & Hm' & Hrows').
  exists r'. split; [exact Hr'|]. split; [exact Hm'|].
  intros o. rewrite Hrows'. cbn in *. rewrite Hrows. tauto.
Qed.

Lemma permission_filter_idempotent_witness :
  exists r',
    filter_queryset db (request_of (Authenticated alice) [])
      {| model := collection; rows := [private; hidden] |} list_view = Ok r'
    /\ forall o, o ∈ rows r' <-> o ∈ [private; hidden].
Proof.
  destruct (permission_filter_idempotent db
              (request_of (Authenticated alice) []) collections list_view
              {| model := collection; rows := [private; hidden] |})
    as (r' & Hr' & _ & Hrows); [vm_compute; reflexivity|].
  exists r'. split; [exact Hr'|exact Hrows].
Defined.
End ObjectPermissionsMore.

Section ObjectPermissionsEdges.
Import KpiObjectPermissionsFilter.
Implicit Types (db : Db) (request : Request) (view : View).

(** What a list request shows, any other request of the same user on the
    same collection shows too. *)
Theorem list_within_retrieve db request queryset view_list view_other r r' :
  is_list view_list = true ->
  is_list view_other = false ->
  filter_queryset db request queryset view_list = Ok r ->
  filter_queryset db request queryset view_other = Ok r' ->
  rows r ⊆ rows r'.
Proof.
  intros Hlist Hother Hr Hr'.
  unfold filter_queryset in Hr'. rewrite Hother in Hr'. cbn [negb] in Hr'.
  rewrite andb_true_r in Hr'.
  destruct (request_is_superuser (user request)).
  { injection Hr' as <-. now apply (object_permissions_subseteq db request
                                      queryset view_list). }
  destruct (Py.strtobool _) as [all_public|e] eqn:Hflag; [|discriminate].
  unfold mbind, Result_bind in Hr'. injection Hr' as <-.
  destruct (filter_queryset_list db request queryset view_list all_public
              Hlist Hflag) as (disc & sub & Hdisc & Hsub & Hres).
  rewrite Hres in Hr. injection Hr as <-.
  destruct (discoverable_total
              (public db (perm_format (model queryset)) queryset))
    as (disc' & Hdisc' & _ & Hdsub).
  destruct (subscribed_total
              (public db (perm_format (model queryset)) queryset)
              (effective_user db (user request)))
    as (sub' & Hsub' & _ & Hssub).
  rewrite Hdisc in Hdisc'. injection Hdisc' as <-.
  rewrite Hsub in Hsub'. injection Hsub' as <-.
  intros o [Ho|Ho]%elem_of_distinct_or; apply elem_of_distinct_or;
    [now left|right].
  destruct all_public; [exact (Hdsub o Ho)|exact (Hssub o Ho)].
Qed.

Lemma list_within_retrieve_witness :
  [private; hidden] ⊆ [private; hidden; showcase].
Proof.
  apply (list_within_retrieve db (request_of (Authenticated alice) [])
           collections list_view retrieve_view
           {| model := collection; rows := [private; hidden] |}
           {| model := collection; rows := [private; hidden; showcase] |});
    vm_compute; reflexivity.
Defined.

(** Unless the superuser shortcut is taken, no row is returned twice, even
    if it is both shared with the user and public. *)
Theorem permission_filter_distinct db request queryset view r :
  request_is_superuser (user request) && negb (is_list view) = false ->
  filter_queryset db request queryset view = Ok r ->
  NoDup (rows r).
Proof.
  intros Hshort. unfold filter_queryset. rewrite Hshort.
  destruct (Py.strtobool _) as [all_public|e]; [|discriminate].
  unfold mbind, Result_bind.
  destruct (discoverable_total
              (public db (perm_format (model queryset)) queryset))
    as (disc & -> & _).
  destruct (subscribed_total
              (public db (perm_format (model queryset)) queryset)
              (effective_user db (user request)))
    as (sub & -> & _).
  destruct (negb (is_list view)); [|destruct all_public];
    intros [= <-]; apply NoDup_remove_dups.
Qed.

Lemma permission_filter_distinct_witness :
  NoDup [private; hidden; showcase].
Proof.
  apply (permission_filter_distinct db (request_of (Authenticated alice) [])
           collections retrieve_view
           {| model := collection; rows := [private; hidden; showcase] |});
    vm_compute; reflexivity.
Defined.

Lemma lower_ascii_idempotent c :
  Py.lower_ascii (Py.lower_ascii c) = Py.lower_ascii c.
Proof.
  destruct c as [[] [] [] [] [] [] [] []]; reflexivity.
Qed.

Lemma lower_idempotent s : Py.lower (Py.lower s) = Py.lower s.
Proof.
  induction s as [|c s IH]; [reflexivity|]. cbn.
  now rewrite lower_ascii_idempotent, IH.
Qed.

(** An [all_public] value that is not one of the truth words makes the
    filter raise [ValueError], for a list and for any other action alike;
    only the superuser shortcut comes before the value is read. *)
Theorem invalid_all_public_raises db request queryset view v :
  query_params request !! "all_public" = Some v ->
  Py.strtobool v = Raise ValueError ->
  request_is_superuser (user request) && negb (is_list view) = false ->
  filter_queryset db request queryset view = Raise ValueError.
Proof.
  intros Hparam Hvalue Hshort. unfold filter_queryset.
  rewrite Hshort, Hparam. cbn [default from_option].
  unfold Py.strtobool in *. rewrite lower_idempotent.
  destruct (existsb _ _); [discriminate|].
  destruct (existsb _ _); [discriminate|]. reflexivity.
Qed.

Lemma invalid_all_public_raises_witness :
  filter_queryset db (request_of AnonymousUser [("all_public", "maybe")])
    collections retrieve_view = Raise ValueError.
Proof.
  apply (invalid_all_public_raises db
           (request_of AnonymousUser [("all_public", "maybe")])
           collections retrieve_view "maybe");
    vm_compute; reflexivity.
Defined.

(** Which setting decides discoverability: the model's own when it has one,
    whatever its parent says; the parent's when only the parent has one, a
    row without parent then being left out; and nothing is discoverable on
    a model where neither has one. *)
Theorem discoverable_fallback (pub : QuerySet) :
  (resolves (model pub) ["discoverable_when_public"] = true ->
   discoverable pub
   = Ok {| model := model pub;
           rows := List.filter discoverable_when_public (rows pub) |})
  /\ (resolves (model pub) ["discoverable_when_public"] = false ->
      resolves (model pub) ["parent"; "discoverable_when_public"] = true ->
      discoverable pub
      = Ok {| model := model pub;
              rows :=
                List.filter
                  (fun o =>
                     match parent o with
                     | Some p => parent_discoverable_when_public p
                     | None => false
                     end)
                  (rows pub) |})
  /\ (resolves (model pub) ["discoverable_when_public"] = false ->
      resolves (model pub) ["parent"; "discoverable_when_public"] = false ->
      discoverable pub = Ok (QS.none pub)).
Proof.
  unfold discoverable. rewrite !try_filter, !filter_unfold.
  cbn [forallb lookup_path holds]. rewrite !andb_true_r.
  repeat split.
  - intros ->. f_equal. f_equal. apply filter_ext. intros o.
    rewrite andb_true_r. now destruct (discoverable_when_public o).
  - intros -> ->. f_equal. f_equal. apply filter_ext. intros o.
    rewrite andb_true_r. destruct (parent o) as [p|]; [|reflexivity].
    now destruct (parent_discoverable_when_public p).
  - now intros -> ->.
Qed.

Lemma discoverable_fallback_witness :
  discoverable {| model := tag; rows := [hidden; showcase] |}
  = Ok {| model := tag; rows := [] |}.
Proof.
  apply (proj2 (proj2 (discoverable_fallback
                         {| model := tag; rows := [hidden; showcase] |})));
    reflexivity.
Defined.
End ObjectPermissionsEdges.

(** ** [RelatedAssetPermissionsFilter] *)

Section RelatedAssets.
Import RelatedAssetPermissionsFilter.

(** A related row is returned exactly when its asset is among the assets
    that the permission filter returns from the whole asset table; a row
    whose asset is not set is never returned, and an error of the
    permission filter is passed on. *)
Theorem related_follows_assets db all_assets request queryset view :
  (forall e,
     KpiObjectPermissionsFilter.filter_queryset db request all_assets view
       = Raise e ->
     filter_queryset db all_assets request queryset view = Raise e)
  /\ (forall available,
        KpiObjectPermissionsFilter.filter_queryset db request all_assets view
          = Ok available ->
        exists r,
          filter_queryset db all_assets request queryset view = Ok r
          /\ r ⊆ queryset
          /\ forall child,
               child ∈ r <->
               (child ∈ queryset
                /\ exists o, o ∈ rows available
                             /\ asset_id child = Some (pk o))).
Proof.
  unfold filter_queryset. split.
  - now intros e ->.
  - intros available ->. eexists. split; [reflexivity|].
    split; [apply List_filter_subseteq|].
    intros child. rewrite elem_of_List_filter. apply and_iff_compat_l.
    unfold asset__in, QS.pks. split.
    + destruct (asset_id child) as [a|]; [|discriminate].
      intros (n & Hn & <-%Z.eqb_eq)%existsb_exists.
      apply in_map_iff in Hn as (o & <- & Ho).
      exists o. split; [now apply list_elem_of_In|reflexivity].
    + intros (o & Ho & ->). apply existsb_exists. exists (pk o).
      split; [|apply Z.eqb_refl]. apply in_map. now apply list_elem_of_In.
Qed.

Lemma related_follows_assets_witness :
  filter_queryset asset_db assets (request_of (Authenticated alice) [])
    related_rows list_view = Ok [on_asset 1 (Some 1)].
Proof.
  destruct (proj2 (related_follows_assets asset_db assets
                     (request_of (Authenticated alice) []) related_rows
                     list_view)
              {| model := asset;
                 rows := [item 1 "question" (in_collection "abc123")] |})
    as (r & Hr & _); [vm_compute; reflexivity|].
  rewrite Hr. vm_compute in Hr. symmetry. exact Hr.
Defined.
End RelatedAssets.

(** ** The search filter and the index *)

Section SearchMore.
Import SearchFilter.
Implicit Types (hs : Haystack) (request : Request) (view : View).
Implicit Types (queryset restricted r : QuerySet) (q : string).

Lemma coerce_pks_ok m (results : list Doc) :
  (forall d, d ∈ results -> pk_type m (django_id d) <> None) ->
  exists zs,
    coerce_pks m results = Ok zs
    /\ forall z, z ∈ zs <->
                 exists d, d ∈ results /\ pk_type m (django_id d) = Some z.
Proof.
  unfold coerce_pks. induction results as [|d results IH]; intros Hall.
  - exists []. split; [reflexivity|]. intros z. split.
    + intros H. inversion H.
    + intros (d & H & _). inversion H.
  - destruct IH as (zs & Hzs & Hmem).
    { intros d' Hd'. apply Hall. now right. }
    destruct (pk_type m (django_id d)) as [z0|] eqn:Hd.
    2:{ exfalso. apply (Hall d); [left|exact Hd]. }
    exists (z0 :: zs). cbn. rewrite Hd. cbn. rewrite Hzs. cbn.
    split; [reflexivity|]. intros z. rewrite elem_of_cons, Hmem. split.
    + intros [->|(d' & Hd' & Hz)]; [exists d; split; [left|exact Hd]|].
      exists d'. split; [now right|exact Hz].
    + intros (d' & [->|Hd']%elem_of_cons & Hz).
      * left. congruence.
      * right. now exists d'.
Qed.

Lemma coerce_pks_raise m (results : list Doc) d :
  d ∈ results -> pk_type m (django_id d) = None ->
  coerce_pks m results = Raise ValueError.
Proof.
  unfold coerce_pks. induction results as [|d' results IH]; intros Hd Hnone.
  - inversion Hd.
  - cbn. apply elem_of_cons in Hd as [->|Hd].
    + now rewrite Hnone.
    + destruct (pk_type m (django_id d')); [|reflexivity]. cbn.
      now rewrite (IH Hd Hnone).
Qed.

(** Past its guards the fall-back answers with the intersection, unless
    the search finds nothing and the probe finds nothing either. *)
Lemma whoosh_proceeds hs request q restricted :
  rows restricted <> [] ->
  is_whoosh hs = true ->
  (exists d, d ∈ documents hs
             /\ filter_query hs request (model restricted) d = true) ->
  (whoosh hs request q restricted).1
  = intersect restricted (QS.pks restricted)
      (List.filter
         (fun d => search hs q d
                   && filter_query hs request (model restricted) d)
         (documents hs)).
Proof.
  intros Hrows Hwhoosh (d & Hd & Hfq). unfold whoosh.
  destruct (QS.pks restricted) as [|z zs] eqn:Hpks.
  { unfold QS.pks in Hpks. now destruct (rows restricted). }
  rewrite Hwhoosh. cbv zeta. cbn [negb].
  destruct (List.filter _ (documents hs)) as [|x xs]; [|reflexivity].
  destruct (List.filter (filter_query hs request (model restricted))
              (documents hs)) as [|y ys] eqn:Hprobe; [|reflexivity].
  exfalso. assert (Hin : d ∈ List.filter
                           (filter_query hs request (model restricted))
                           (documents hs))
    by now apply elem_of_List_filter.
  rewrite Hprobe in Hin. inversion Hin.
Qed.

(** The search narrows the collection to the rows whose key is the coerced
    identifier of a document that matches the query, belongs to the model
    and, where the index records grantees, is granted to the user. *)
Theorem search_intersects hs request queryset restricted view q :
  restrict_parent request queryset = Ok restricted ->
  query_params request !! "q" = Some q ->
  COMMON_QUERY_TO_ORM_FILTER !! q = None ->
  Re.match_ library_collection_pattern q = None ->
  rows restricted <> [] ->
  is_whoosh hs = true ->
  (exists d, d ∈ documents hs
             /\ filter_query hs request (model restricted) d = true) ->
  (forall d, d ∈ documents hs -> search hs q d = true ->
             filter_query hs request (model restricted) d = true ->
             pk_type (model restricted) (django_id d) <> None) ->
  exists r,
    (filter_queryset hs request queryset view).1 = Ok r
    /\ model r = model restricted
    /\ forall o,
         o ∈ rows r <->
         (o ∈ rows restricted
          /\ exists d,
               d ∈ documents hs /\ search hs q d = true
               /\ filter_query hs request (model restricted) d = true
               /\ pk_type (model restricted) (django_id d) = Some (pk o)).
Proof.
  intros Hparent Hq Htable Hpattern Hrows Hwhoosh Hpop Hcoerce.
  unfold filter_queryset. rewrite Hparent, Hq, Htable, Hpattern.
  rewrite (whoosh_proceeds hs request q restricted Hrows Hwhoosh Hpop).
  set (results := List.filter _ (documents hs)).
  destruct (coerce_pks_ok (model restricted) results) as (zs & Hzs & Hmem).
  { intros d [Hd [Hs Hf]%andb_true_iff]%elem_of_List_filter.
    now apply Hcoerce. }
  unfold intersect. rewrite Hzs. unfold mbind, Result_bind.
  rewrite filter_unfold. cbn [forallb lookup_path resolves String.eqb].
  cbn [Ascii.eqb Bool.eqb orb andb]. eexists. split; [reflexivity|].
  split; [reflexivity|]. intros o. cbn [rows holds forallb].
  rewrite elem_of_List_filter, andb_true_r. split.
  - intros [Ho (z & Hz%list_elem_of_In & <-%Z.eqb_eq)%existsb_exists].
    split; [exact Ho|].
    apply elem_of_List_filter in Hz as [Hz _].
    apply Hmem in Hz as (d & Hd & Hpk).
    apply elem_of_List_filter in Hd as [Hd [Hs Hf]%andb_true_iff].
    now exists d.
  - intros [Ho (d & Hd & Hs & Hf & Hpk)]. split; [exact Ho|].
    apply existsb_exists. exists (pk o). split; [|apply Z.eqb_refl].
    apply list_elem_of_In, elem_of_List_filter. split.
    + apply Hmem. exists d. split; [|exact Hpk].
      apply elem_of_List_filter. split; [exact Hd|]. now rewrite Hs, Hf.
    + apply existsb_exists. exists (pk o). split; [|apply Z.eqb_refl].
      unfold QS.pks. apply in_map. now apply list_elem_of_In.
Qed.

Lemma search_intersects_witness :
  exists r,
    (filter_queryset photo_index
       (request_of (Authenticated alice) [("q", "photo")]) assets
       list_view).1 = Ok r
    /\ (item 1 "question" (in_collection "abc123") ∈ rows r)
    /\ (item 3 "survey" (in_collection "abc123") ∉ rows r).
Proof.
  destruct (search_intersects photo_index
              (request_of (Authenticated alice) [("q", "photo")])
              assets assets list_view "photo")
    as (r & Hr & _ & Hrows); try (vm_compute; reflexivity).
  - discriminate.
  - exists (document "kpi.asset" "1" ["alice"]). split; [left|reflexivity].
  - intros d Hd _ _. repeat (apply elem_of_cons in Hd as [->|Hd]);
      [discriminate..|inversion Hd].
  - exists r. split; [exact Hr|]. split.
    + apply Hrows. split; [left|].
      exists (document "kpi.asset" "1" ["alice"]).
      split; [left|]. repeat split.
    + intros (_ & d & Hd & _ & Hf & Hpk)%Hrows.
      repeat (apply elem_of_cons in Hd as [->|Hd]);
        try discriminate. inversion Hd.
Defined.
End SearchMore.

Section SearchEdges.
Import SearchFilter.
Implicit Types (hs : Haystack) (request : Request) (view : View).
Implicit Types (queryset restricted r : QuerySet) (q : string).

(** When the index does hold a document for the model and the user but the
    query matches none, the answer is the empty collection: the fall-back
    to the whole collection is for an index without any entry only. *)
Theorem no_match_in_populated_index hs request queryset restricted view q :
  restrict_parent request queryset = Ok restricted ->
  query_params request !! "q" = Some q ->
  COMMON_QUERY_TO_ORM_FILTER !! q = None ->
  Re.match_ library_collection_pattern q = None ->
  rows restricted <> [] ->
  is_whoosh hs = true ->
  (exists d, d ∈ documents hs
             /\ filter_query hs request (model restricted) d = true) ->
  (forall d, d ∈ documents hs ->
             filter_query hs request (model restricted) d = true ->
             search hs q d = false) ->
  filter_queryset hs request queryset view
  = (Ok (QS.none restricted),
     GetBackend :: (if setup_complete hs then [] else [Setup])
       ++ [Search q; Probe]).
Proof.
  intros Hparent Hq Htable Hpattern Hrows Hwhoosh (d & Hd & Hf) Hnone.
  unfold filter_queryset. rewrite Hparent, Hq, Htable, Hpattern.
  unfold whoosh.
  destruct (QS.pks restricted) as [|z zs] eqn:Hpks.
  { unfold QS.pks in Hpks. now destruct (rows restricted). }
  rewrite Hwhoosh. cbv zeta. cbn [negb].
  rewrite (filter_nil (fun d => search hs q d && _)).
  2:{ intros d' Hd'.
      destruct (filter_query hs request (model restricted) d') eqn:Hf';
        [|apply andb_false_r].
      now rewrite (Hnone d' Hd' Hf'). }
  destruct (List.filter (filter_query hs request (model restricted))
              (documents hs)) as [|y ys] eqn:Hprobe.
  { exfalso. assert (Hin : d ∈ List.filter
                             (filter_query hs request (model restricted))
                             (documents hs))
      by now apply elem_of_List_filter.
    rewrite Hprobe in Hin. inversion Hin. }
  f_equal. unfold intersect, coerce_pks. cbn.
  unfold QS.none. f_equal. f_equal. apply filter_nil. reflexivity.
Qed.

Lemma no_match_in_populated_index_witness :
  filter_queryset photo_index
    (request_of (Authenticated alice) [("q", "sketch")]) assets list_view
  = (Ok (QS.none assets), [GetBackend; Search "sketch"; Probe]).
Proof.
  apply (no_match_in_populated_index photo_index
           (request_of (Authenticated alice) [("q", "sketch")])
           assets assets list_view "sketch");
    try (vm_compute; reflexivity).
  - discriminate.
  - exists (document "kpi.asset" "1" ["alice"]). split; [left|reflexivity].
Defined.

(** A matching document whose identifier the key type rejects makes the
    filter raise [ValueError]; it is not skipped. *)
Theorem uncoercible_identifier_raises hs request queryset restricted view q d :
  restrict_parent request queryset = Ok restricted ->
  query_params request !! "q" = Some q ->
  COMMON_QUERY_TO_ORM_FILTER !! q = None ->
  Re.match_ library_collection_pattern q = None ->
  rows restricted <> [] ->
  is_whoosh hs = true ->
  d ∈ documents hs ->
  search hs q d = true ->
  filter_query hs request (model restricted) d = true ->
  pk_type (model restricted) (django_id d) = None ->
  (filter_queryset hs request queryset view).1 = Raise ValueError.
Proof.
  intros Hparent Hq Htable Hpattern Hrows Hwhoosh Hd Hs Hf Hnone.
  unfold filter_queryset. rewrite Hparent, Hq, Htable, Hpattern.
  rewrite (whoosh_proceeds hs request q restricted Hrows Hwhoosh)
    by now exists d.
  unfold intersect.
  rewrite (coerce_pks_raise (model restricted) _ d); [reflexivity| |exact Hnone].
  apply elem_of_List_filter. split; [exact Hd|]. now rewrite Hs, Hf.
Qed.

Lemma uncoercible_identifier_raises_witness :
  (filter_queryset broken_index
     (request_of (Authenticated alice) [("q", "anything")]) assets
     list_view).1 = Raise ValueError.
Proof.
  apply (uncoercible_identifier_raises broken_index
           (request_of (Authenticated alice) [("q", "anything")])
           assets assets list_view "anything"
           (document "kpi.asset" "one" ["alice"]));
    try (vm_compute; reflexivity).
  - discriminate.
  - left.
Defined.

(** With a backend other than Whoosh, a query that has to be searched for
    raises [NotImplementedError] once the backend has been looked up, and
    nothing is searched. *)
Theorem unsupported_backend_raises hs request queryset restricted view q :
  restrict_parent request queryset = Ok restricted ->
  query_params request !! "q" = Some q ->
  COMMON_QUERY_TO_ORM_FILTER !! q = None ->
  Re.match_ library_collection_pattern q = None ->
  rows restricted <> [] ->
  is_whoosh hs = false ->
  filter_queryset hs request queryset view
  = (Raise NotImplementedError, [GetBackend]).
Proof.
  intros Hparent Hq Htable Hpattern Hrows Hwhoosh.
  unfold filter_queryset. rewrite Hparent, Hq, Htable, Hpattern.
  unfold whoosh, QS.pks.
  destruct (rows restricted); [congruence|]. cbn [map]. now rewrite Hwhoosh.
Qed.

Lemma unsupported_backend_raises_witness :
  filter_queryset other_backend
    (request_of (Authenticated alice) [("q", "photo")]) assets list_view
  = (Raise NotImplementedError, [GetBackend]).
Proof.
  apply (unsupported_backend_raises other_backend
           (request_of (Authenticated alice) [("q", "photo")])
           assets assets list_view "photo");
    try (vm_compute; reflexivity).
  discriminate.
Defined.

(** The backend is asked something only for a query that misses both the
    table and the pattern, over a collection that is not empty. *)
Theorem backend_asked_only_when_needed hs request queryset view :
  (filter_queryset hs request queryset view).2 <> [] ->
  exists q restricted,
    restrict_parent request queryset = Ok restricted
    /\ query_params request !! "q" = Some q
    /\ COMMON_QUERY_TO_ORM_FILTER !! q = None
    /\ Re.match_ library_collection_pattern q = None
    /\ rows restricted <> [].
Proof.
  unfold filter_queryset.
  destruct (restrict_parent request queryset) as [restricted|e];
    [|now intros []].
  destruct (query_params request !! "q") as [q|]; [|now intros []].
  destruct (COMMON_QUERY_TO_ORM_FILTER !! q) eqn:Htable; [now intros []|].
  destruct (Re.match_ library_collection_pattern q) eqn:Hpattern;
    [now intros []|].
  intros Htrace. exists q, restricted. repeat (split; [reflexivity||assumption|]).
  intros Hrows. apply Htrace. unfold whoosh, QS.pks. now rewrite Hrows.
Qed.

Lemma backend_asked_only_when_needed_witness :
  exists q restricted,
    restrict_parent (request_of (Authenticated alice) [("q", "photo")]) assets
      = Ok restricted
    /\ query_params (request_of (Authenticated alice) [("q", "photo")]) !! "q"
       = Some q
    /\ COMMON_QUERY_TO_ORM_FILTER !! q = None
    /\ Re.match_ library_collection_pattern q = None
    /\ rows restricted <> [].
Proof.
  apply (backend_asked_only_when_needed photo_index
           (request_of (Authenticated alice) [("q", "photo")]) assets
           list_view).
  vm_compute. discriminate.
Defined.
End SearchEdges.

Section SearchShortcuts.
Import SearchFilter.
Implicit Types (hs : Haystack) (request : Request) (view : View).
Implicit Types (queryset restricted r : QuerySet) (q : string).

Lemma search_within_restricted hs request queryset restricted view r :
  restrict_parent request queryset = Ok restricted ->
  (filter_queryset hs request queryset view).1 = Ok r ->
  rows r ⊆ rows restricted.
Proof.
  intros Hparent. unfold filter_queryset. rewrite Hparent.
  destruct (query_params request !! "q") as [q|]; [|now intros [= <-]].
  destruct (COMMON_QUERY_TO_ORM_FILTER !! q) as [kwargs|].
  { apply guarded_filter_subseteq. }
  destruct (Re.match_ library_collection_pattern q) as [m|].
  { apply library_collection_subseteq. }
  apply whoosh_subseteq.
Qed.

(** With an empty [parent] parameter every row that comes back has no
    parent, whatever else the request asks for. *)
Theorem empty_parent_keeps_parentless_rows hs request queryset view r :
  query_params request !! "parent" = Some "" ->
  (filter_queryset hs request queryset view).1 = Ok r ->
  forall o, o ∈ rows r -> parent o = None.
Proof.
  intros Hparam Hr o Ho.
  destruct (restrict_parent request queryset) as [restricted|e] eqn:Hparent.
  2:{ unfold filter_queryset in Hr. rewrite Hparent in Hr. discriminate. }
  apply (search_within_restricted hs request queryset restricted view r
           Hparent Hr) in Ho.
  unfold restrict_parent in Hparent.
  rewrite bool_decide_eq_true_2 in Hparent by exact Hparam.
  apply filter_ok in Hparent as [_ Hrows]. rewrite Hrows in Ho.
  apply elem_of_List_filter in Ho as [_ Ho]. cbn in Ho.
  now destruct (parent o).
Qed.

Lemma empty_parent_keeps_parentless_rows_witness :
  parent (item 4 "question" None) = None.
Proof.
  apply (empty_parent_keeps_parentless_rows empty_index
           (request_of (Authenticated alice)
              [("parent", ""); ("q", "asset_type:question")])
           assets list_view
           {| model := asset; rows := [item 4 "question" None] |}).
  - vm_compute; reflexivity.
  - vm_compute; reflexivity.
  - left.
Defined.

(** On a model without a [parent] field an empty [parent] parameter makes
    the filter raise [FieldError], with or without a query and whether or
    not the query is one of the recognised ones. *)
Theorem empty_parent_without_parent_field hs request queryset view :
  query_params request !! "parent" = Some "" ->
  resolves (model queryset) ["parent"] = false ->
  filter_queryset hs request queryset view = (Raise FieldError, []).
Proof.
  intros Hparam Hfield. unfold filter_queryset.
  now rewrite (restrict_parent_field_error request queryset Hparam Hfield).
Qed.

Lemma empty_parent_without_parent_field_witness :
  filter_queryset empty_index
    (request_of (Authenticated alice)
       [("parent", ""); ("q", "asset_type:block")])
    tags list_view = (Raise FieldError, []).
Proof.
  apply (empty_parent_without_parent_field empty_index
           (request_of (Authenticated alice)
              [("parent", ""); ("q", "asset_type:block")])
           tags list_view); vm_compute; reflexivity.
Defined.


End SearchShortcuts.

(** ** Strings: splitting and joining *)

Section Strings.
Implicit Types (s x acc sep p : string) (c a : ascii).

Lemma append_nil_l s : "" +:+ s = s.
Proof. reflexivity. Qed.

Lemma append_cons a s1 s2 : String a s1 +:+ s2 = String a (s1 +:+ s2).
Proof. reflexivity. Qed.

Lemma append_assoc s1 s2 s3 : (s1 +:+ s2) +:+ s3 = s1 +:+ (s2 +:+ s3).
Proof.
  induction s1 as [|a s1 IH]; [reflexivity|].
  rewrite !append_cons. now f_equal.
Qed.

Lemma append_empty_r s : s +:+ "" = s.
Proof.
  induction s as [|a s IH]; [reflexivity|]. rewrite append_cons. now f_equal.
Qed.




Lemma rev_onto_append acc s : Py.rev_onto acc s = Py.rev_onto "" s +:+ acc.
Proof.
  revert acc. induction s as [|a s IH]; intros acc; [reflexivity|]. cbn.
  rewrite IH, (IH (String a "")), append_assoc. reflexivity.
Qed.



Lemma contains_rev_onto c acc s :
  Str.contains c (Py.rev_onto acc s) = Str.contains c s || Str.contains c acc.
Proof.
  revert acc. induction s as [|a s IH]; intros acc; [reflexivity|]. cbn.
  rewrite IH. cbn. destruct (Ascii.eqb a c), (Str.contains c s),
    (Str.contains c acc); reflexivity.
Qed.




End Strings.

(** ** The structured pattern on well-formed library queries *)

Section GreedyClasses.
Implicit Types (s x rest : string) (c a b : ascii) (caps : Re.Captures).
Implicit Types (k : Re.Cont).











End GreedyClasses.

Section LibraryPattern.
Import SearchFilter.

Local Abbreviation type_body :=
  (Re.Cat (Re.Lit "asset_type:")
     (Re.Cat (Re.Plus (Re.NotChr " ")) (Re.Star (Re.Lit " OR ")))).

Local Abbreviation render types :=
  (Str.join " OR " (map (String.append "asset_type:") types)).

Local Abbreviation well_formed t :=
  (t%string <> EmptyString /\ Str.contains " " t%string = false).




Section Tail.
Context (tail2 : string) (k : Re.Cont) (caps r : Re.Captures).

Local Abbreviation tail1 := (String " " tail2).
Local Abbreviation tail := (String ")" (String " " tail2)).

Hypothesis tail1_no_or : Py.strip_prefix " OR " tail1 = None.
Hypothesis k_tail : k tail caps = Some r.
Hypothesis k_tail1 : k tail1 caps = None.



End Tail.


End LibraryPattern.

Section LibraryQueries.
Import SearchFilter.




End LibraryQueries.

(** ** [ReportsDetailSerializer] *)

Section ReportNames.
Import ReportsDetailSerializer.

Lemma split_go_single_pieces c acc s :
  Str.contains c acc = false ->
  Forall (fun p => Str.contains c p = false)
    (Py.split_go (String c "") 0 acc s).
Proof.
  revert acc. induction s as [|a s IH]; intros acc Hacc.
  - repeat constructor. now rewrite contains_rev_onto, Hacc.
  - cbn [Py.split_go]. unfold Py.startswith. cbn [Py.strip_prefix].
    destruct (Ascii.eqb c a) eqn:Ha.
    + constructor; [now rewrite contains_rev_onto, Hacc|]. now apply IH.
    + apply IH. cbn. now rewrite Ascii.eqb_sym, Ha.
Qed.

Lemma split_go_single_join c acc s :
  Str.join (String c "") (Py.split_go (String c "") 0 acc s)
  = Py.rev_onto "" acc +:+ s.
Proof.
  revert acc. induction s as [|a s IH]; intros acc.
  - now rewrite append_empty_r.
  - cbn [Py.split_go]. unfold Py.startswith. cbn [Py.strip_prefix].
    destruct (Ascii.eqb c a) eqn:Ha.
    + apply Ascii.eqb_eq in Ha as <-. cbn [String.length Nat.sub].
      specialize (IH ""). cbn [Py.rev_onto] in IH. rewrite append_nil_l in IH.
      destruct (Py.split_go (String c "") 0 "" s) as [|y l] eqn:Hgo.
      { destruct s; cbn in Hgo; [discriminate|].
        unfold Py.startswith in Hgo.
        destruct (Py.strip_prefix _ _); discriminate. }
      change (Str.join (String c "") (Py.rev_onto "" acc :: y :: l))
        with (Py.rev_onto "" acc +:+ String c ""
              +:+ Str.join (String c "") (y :: l)).
      now rewrite IH.
    + rewrite IH. cbn [Py.rev_onto].
      rewrite (rev_onto_append (String a "")), append_assoc. reflexivity.
Qed.

(** The names asked of a report are cut out of the [names] parameter at
    its commas: joined by commas the pieces give the parameter back, no
    piece has a comma in it, and the names are the pieces of more than one
    character, in order.  Without the parameter no name is asked for,
    which is not the same as asking for none. *)
Theorem vnames_are_the_long_pieces request :
  (query_params request !! "names" = None -> vnames request = None)
  /\ (forall names,
        query_params request !! "names" = Some names ->
        exists pieces,
          Str.join "," pieces = names
          /\ Forall (fun p => Str.contains "," p = false) pieces
          /\ vnames request
             = Some (List.filter (fun p => Nat.ltb 1 (String.length p))
                       pieces)).
Proof.
  unfold vnames. split.
  - now intros ->.
  - intros names ->. exists (Py.split names ","). cbn [default from_option].
    split; [apply (split_go_single_join "," "" names)|].
    split; [now apply split_go_single_pieces|reflexivity].
Qed.

Lemma vnames_are_the_long_pieces_witness :
  exists pieces,
    Str.join "," pieces = "age,x,,name"
    /\ vnames (request_of AnonymousUser [("names", "age,x,,name")])
       = Some (List.filter (fun p => Nat.ltb 1 (String.length p)) pieces).
Proof.
  destruct (proj2 (vnames_are_the_long_pieces
                     (request_of AnonymousUser [("names", "age,x,,name")]))
              "age,x,,name")
    as (pieces & Hjoin & _ & Hnames); [vm_compute; reflexivity|].
  exists pieces. split; [exact Hjoin|exact Hnames].
Defined.
End ReportNames.

(** ** More on [KpiAssignedObjectPermissionsFilter] *)

Section AssignedMore.
Import KpiAssignedObjectPermissionsFilter.
Implicit Types (db : Db) (request : Request) (view : View).
Implicit Types (queryset : list ObjectPermission) (g : ObjectPermission).

Lemma List_filter_all {A : Type} (f : A -> bool) (l : list A) :
  (forall x, In x l -> f x = true) -> List.filter f l = l.
Proof.
  induction l as [|x l IH]; intros Hf; [reflexivity|]. cbn.
  rewrite (Hf x) by now left. f_equal. apply IH. intros y Hy. apply Hf.
  now right.
Qed.

Lemma unique_pk queryset g h :
  NoDup (map op_pk queryset) ->
  In g queryset -> In h queryset -> op_pk h = op_pk g -> h = g.
Proof.
  induction queryset as [|x l IH]; intros Hnd Hg Hh Hpk; [inversion Hg|].
  cbn in Hnd. apply NoDup_cons in Hnd as [Hx Hnd].
  destruct Hg as [->|Hg], Hh as [->|Hh]; [reflexivity| | |now apply IH].
  - exfalso. apply Hx. rewrite <- Hpk. apply list_elem_of_In. now apply in_map.
  - exfalso. apply Hx. rewrite Hpk. apply list_elem_of_In. now apply in_map.
Qed.

(** With primary keys that are unique, an ordinary user is shown exactly
    the assignments on an object number for which some assignment is
    addressed to the user. *)
Theorem regular_user_sees_by_object_id db request queryset view g :
  is_superuser (KpiObjectPermissionsFilter.effective_user db (user request))
    = false ->
  user_pk (KpiObjectPermissionsFilter.effective_user db (user request))
    <> ANONYMOUS_USER_ID db ->
  NoDup (map op_pk queryset) ->
  In g (filter_queryset db request queryset view) <->
  In g queryset /\
  exists mine,
    In mine queryset
    /\ op_user mine
       = user_pk (KpiObjectPermissionsFilter.effective_user db (user request))
    /\ object_id mine = object_id g.
Proof.
  intros Hsuper Hanon Hpks.
  rewrite (regular_user_sees db request queryset view g Hsuper Hanon).
  split.
  - intros (Hg & h & mine & Hh & Hpk & Hmine & Hu & Hobj).
    split; [exact Hg|]. exists mine. repeat (split; [assumption|]).
    now rewrite <- (unique_pk queryset g h Hpks Hg Hh Hpk).
  - intros (Hg & mine & Hmine & Hu & Hobj). split; [exact Hg|].
    now exists g, mine.
Qed.

Lemma regular_user_sees_by_object_id_witness :
  In bob_on_collection_5
    (filter_queryset db (request_of (Authenticated alice) []) assignments
       list_view).
Proof.
  apply (regular_user_sees_by_object_id db
           (request_of (Authenticated alice) []) assignments list_view
           bob_on_collection_5).
  - reflexivity.
  - discriminate.
  - repeat constructor; rewrite ?list_elem_of_In; cbn; intuition discriminate.
  - split; [right; now left|].
    exists alice_on_asset_5. split; [now left|]. split; reflexivity.
Defined.

(** Whoever asks, superuser, anonymous or ordinary user, is shown every
    assignment of the collection that is addressed to them. *)
Theorem own_assignments_are_shown db request queryset view g :
  In g queryset ->
  op_user g
  = user_pk (KpiObjectPermissionsFilter.effective_user db (user request)) ->
  In g (filter_queryset db request queryset view).
Proof.
  intros Hg Hu.
  destruct (is_superuser
              (KpiObjectPermissionsFilter.effective_user db (user request)))
    eqn:Hsuper.
  { unfold filter_queryset. now rewrite Hsuper. }
  destruct (Z.eq_dec
              (user_pk (KpiObjectPermissionsFilter.effective_user db
                          (user request)))
              (ANONYMOUS_USER_ID db)) as [Hanon|Hanon].
  - unfold filter_queryset. rewrite Hsuper.
    rewrite (proj2 (Z.eqb_eq _ _) Hanon).
    apply filter_In. split; [exact Hg|]. now apply Z.eqb_eq.
  - apply (regular_user_sees db request queryset view g Hsuper Hanon).
    split; [exact Hg|]. now exists g, g.
Qed.

Lemma own_assignments_are_shown_witness :
  In alice_on_asset_5
    (filter_queryset db (request_of (Authenticated alice) []) assignments
       list_view).
Proof.
  apply (own_assignments_are_shown db (request_of (Authenticated alice) [])
           assignments list_view alice_on_asset_5);
    [now left|reflexivity].
Defined.

(** Filtering the answer of the filter again, for the same request, gives
    the same answer. *)
Theorem assigned_filter_idempotent db request queryset view :
  filter_queryset db request (filter_queryset db request queryset view) view
  = filter_queryset db request queryset view.
Proof.
  destruct (is_superuser
              (KpiObjectPermissionsFilter.effective_user db (user request)))
    eqn:Hsuper.
  { unfold filter_queryset. now rewrite Hsuper. }
  destruct (Z.eq_dec
              (user_pk (KpiObjectPermissionsFilter.effective_user db
                          (user request)))
              (ANONYMOUS_USER_ID db)) as [Hanon|Hanon].
  - unfold filter_queryset. rewrite Hsuper.
    rewrite (proj2 (Z.eqb_eq _ _) Hanon).
    apply List_filter_all. now intros g [_ Hg]%filter_In.
  - set (shown := filter_queryset db request queryset view).
    assert (Hshown : forall g, In g shown ->
                               In g (filter_queryset db request shown view)).
    { intros g Hg.
      apply (regular_user_sees db request shown view g Hsuper Hanon).
      split; [exact Hg|].
      apply (regular_user_sees db request queryset view g Hsuper Hanon)
        in Hg as (Hg & h & mine & Hh & Hpk & Hmine & Hu & Hobj).
      exists h, mine. repeat split; try assumption.
      + apply (regular_user_sees db request queryset view h Hsuper Hanon).
        split; [exact Hh|]. now exists h, mine.
      + apply (regular_user_sees db request queryset view mine Hsuper Hanon).
        split; [exact Hmine|]. now exists mine, mine. }
    unfold filter_queryset at 1. rewrite Hsuper.
    rewrite (proj2 (Z.eqb_neq _ _) Hanon).
    apply List_filter_all. intros g Hg.
    specialize (Hshown g Hg). unfold filter_queryset at 1 in Hshown.
    rewrite Hsuper, (proj2 (Z.eqb_neq _ _) Hanon) in Hshown.
    now apply filter_In in Hshown as [_ Hshown].
Qed.
End AssignedMore.

(** ** More on [AttachmentFilter] *)

Section AttachmentsMore.
Import AttachmentFilter.
Implicit Types (request : Request) (view : View) (store : Store).
Implicit Types (queryset : list Attachment).

Lemma of_type_spec request queryset a :
  In a (of_type request queryset) <->
  In a queryset
  /\ forall t, nonempty (query_params request !! "type") = Some t ->
               Py.startswith (Py.lower (mimetype a)) (Py.lower t) = true.
Proof.
  unfold of_type. destruct (nonempty _) as [t|].
  - rewrite filter_In, lower_idempotent. split.
    + intros [Ha Ht]. split; [exact Ha|]. now intros t' [= <-].
    + intros [Ha Ht]. split; [exact Ha|]. now apply Ht.
  - split; [intros Ha; split; [exact Ha|discriminate]|now intros [Ha _]].
Qed.

(** The attachments of a grouped answer are attachments of the list that
    was grouped. *)
Lemma grouped_within {K : Type} (key : Attachment -> K) eqb (ref : K -> option Ref)
    body l store a :
  (forall index k atts store,
     body index k atts store = ([], store)
     \/ (exists r d,
           ref k = Some r /\ d !! "attachments" = Some (CAttachments atts)
           /\ body index k atts store = ([Stored r], <[r := d]> store))
     \/ (exists d,
           d !! "attachments" = Some (CAttachments atts)
           /\ body index k atts store = ([New d], store))) ->
  In a (output_attachments (grouped key eqb body l store)) -> In a l.
Proof.
  intros Hbody. unfold grouped.
  pose proof (rows_within key eqb ref body Hbody l (length l) 0 l store
                (fun a Ha => Ha)) as [Hrows _].
  destruct (rows key eqb body (length l) 0 l store) as [result store'].
  unfold output_attachments, output_rows. cbn [fst snd] in *.
  intros (atts & Hatts & Ha)%in_concat.
  apply in_map_iff in Hatts as (d & <- & Hd).
  apply in_map_iff in Hd as (row & <- & Hrow).
  now apply (Hrows row a).
Qed.

Lemma output_within request queryset view store a :
  In a (output_attachments (filter_queryset request queryset view store)) ->
  In a (of_type request queryset).
Proof.
  unfold filter_queryset.
  destruct (bool_decide (order_by_param request = Some "question"));
    [|destruct (bool_decide (order_by_param request = Some "submission"))].
  - intros Ha. apply (Permutation_in a (by_question_Permutation
                                          request queryset)).
    destruct (bool_decide _); [|exact Ha].
    apply (grouped_within _ _ snd _ _ _ _ (question_row_spec _)) in Ha.
    exact Ha.
  - intros Ha. apply (Permutation_in a (by_submission_Permutation
                                          request queryset)).
    destruct (bool_decide _); [|exact Ha].
    refine (grouped_within _ _ snd _ _ _ _ _ Ha).
    intros index k atts s. right. apply submission_row_spec.
  - cbn [output_attachments fst]. apply Permutation_in.
    apply order_by_pk_Permutation.
Qed.

(** Every attachment of an answer, grouped or not, is one of the collection
    and, when a type is asked for, has a mimetype that starts with it, case
    set aside. *)
Theorem answer_is_of_the_type request queryset view store a :
  In a (output_attachments (filter_queryset request queryset view store)) ->
  In a queryset
  /\ forall t, nonempty (query_params request !! "type") = Some t ->
               Py.startswith (Py.lower (mimetype a)) (Py.lower t) = true.
Proof.
  intros Ha. apply of_type_spec.
  now apply (output_within request queryset view store).
Qed.

Lemma answer_is_of_the_type_witness :
  In photo_3 attachments
  /\ forall t,
       nonempty
         (query_params
            (request_of AnonymousUser [("type", "IMAGE"); ("group_by", "question")])
          !! "type") = Some t ->
       Py.startswith (Py.lower (mimetype photo_3)) (Py.lower t) = true.
Proof.
  apply (answer_is_of_the_type
           (request_of AnonymousUser
              [("type", "IMAGE"); ("group_by", "question")])
           attachments list_view questions photo_3).
  vm_compute. now left.
Defined.
End AttachmentsMore.

Section AttachmentOrder.
Import AttachmentFilter.
Implicit Types (request : Request) (view : View) (store : Store).
Implicit Types (queryset : list Attachment).

(** The rows of a grouping in which every round appends its object carry
    the list that was grouped, when the objects are not shared. *)
Lemma grouped_keeps_all {K : Type} (key : Attachment -> K) eqb
    (ref : K -> option Ref) body l store :
  (forall index k atts store,
     (exists r d,
        ref k = Some r /\ d !! "attachments" = Some (CAttachments atts)
        /\ body index k atts store = ([Stored r], <[r := d]> store))
     \/ (exists d,
           d !! "attachments" = Some (CAttachments atts)
           /\ body index k atts store = ([New d], store))) ->
  (forall store r (d : Dict) a b,
     ref b = Some r -> ref a <> Some r ->
     (forall r', ref a = Some r' -> deref store r' !! "attachments" = None) ->
     is_Some (d !! "attachments") ->
     eqb (<[r := d]> store) a b = false) ->
  own_objects (fun att => ref (key att)) store l ->
  output_attachments (grouped key eqb body l store) = l.
Proof.
  intros Hbody Heqb [Hdup Hnew]. unfold grouped.
  destruct (rows_keep_all key eqb ref body) with (fuel := length l)
    (index := 0%nat) (l := l) (store := store) as [Hrows _];
    try assumption; try reflexivity.
  - intros index k atts s. right. apply Hbody.
  - intros index k atts s.
    destruct (Hbody index k atts s) as [(r & d & _ & _ & ->)|(d & _ & ->)];
      discriminate.
  - destruct (rows key eqb body (length l) 0 l store) as [result store'].
    unfold output_attachments, output_rows. cbn [fst snd] in *.
    now rewrite map_map.
Qed.

(** Unless rows are left out, that is with [all] on or when not grouping
    by question, and when no two attachments share the dictionary that the
    grouping writes into, none of which holds attachments beforehand, an
    answer holds every attachment of the asked type, each as many times as
    the collection does. *)
Theorem answer_keeps_every_attachment request queryset view store :
  all_param request = true
  \/ query_params request !! "group_by" <> Some "question" ->
  (query_params request !! "group_by" = Some "question" ->
   own_objects question store queryset) ->
  (query_params request !! "group_by" = Some "submission" ->
   own_objects (fun att => submission (instance att)) store queryset) ->
  Permutation
    (output_attachments (filter_queryset request queryset view store))
    (of_type request queryset).
Proof.
  intros Hkeep Hquestion Hsubmission. unfold filter_queryset.
  destruct (bool_decide (order_by_param request = Some "question"));
    [|destruct (bool_decide (order_by_param request = Some "submission"))].
  - rewrite <- (by_question_Permutation request queryset).
    case_bool_decide as Hgroup; [|reflexivity].
    destruct Hkeep as [Hall|Hother]; [|contradiction].
    rewrite Hall.
    rewrite (grouped_keeps_all question_key question_key_eqb snd);
      [reflexivity| |apply question_key_eqb_written|].
    + intros index k atts s.
      destruct (question_row_spec true index k atts s) as [Hnone|Hsome];
        [|exact Hsome].
      apply (f_equal fst) in Hnone.
      now apply question_row_left_out in Hnone as [? _].
    + apply (own_objects_Permutation question store
               (of_type request queryset));
        [apply by_question_Permutation|].
      now apply own_objects_of_type, Hquestion.
  - rewrite <- (by_submission_Permutation request queryset).
    case_bool_decide as Hgroup; [|reflexivity].
    rewrite (grouped_keeps_all submission_key submission_key_eqb snd);
      [reflexivity| |apply submission_key_eqb_written|].
    + intros index k atts s. apply submission_row_spec.
    + apply (own_objects_Permutation
               (fun att => submission (instance att)) store
               (of_type request queryset));
        [apply by_submission_Permutation|].
      now apply own_objects_of_type, Hsubmission.
  - apply order_by_pk_Permutation.
Qed.

Lemma answer_keeps_every_attachment_witness :
  Permutation
    (output_attachments
       (filter_queryset
          (request_of AnonymousUser [("group_by", "question")])
          attachments_apart list_view questions))
    (of_type (request_of AnonymousUser [("group_by", "question")])
       attachments_apart).
Proof.
  apply (answer_keeps_every_attachment
           (request_of AnonymousUser [("group_by", "question")])
           attachments_apart list_view questions).
  - left. vm_compute; reflexivity.
  - intros _. split.
    + apply (bool_decide_unpack _). vm_compute; reflexivity.
    + repeat constructor.
  - intros H. vm_compute in H. discriminate.
Defined.

(** Without a grouping or ordering by question or submission, the answer is
    the attachments of the asked type in the order of their primary keys,
    descending when [sort] is [desc] and ascending for any other value. *)
Theorem plain_answer_is_ordered_by_pk request queryset view store :
  order_by_param request <> Some "question" ->
  order_by_param request <> Some "submission" ->
  exists l,
    filter_queryset request queryset view store = (Attachments l, store)
    /\ Permutation l (of_type request queryset)
    /\ if bool_decide (query_params request !! "sort" = Some "desc")
       then Sorted (fun a b => att_pk b <= att_pk a) l
       else Sorted (fun a b => att_pk a <= att_pk b) l.
Proof.
  intros Hq Hs. unfold filter_queryset.
  rewrite !bool_decide_eq_false_2 by assumption.
  eexists. split; [reflexivity|]. split; [apply order_by_pk_Permutation|].
  unfold sort_param, order_by_pk. case_bool_decide; cbn [String.eqb].
  - apply (sorted_Sorted (fun a b => Z.ltb b a) att_pk (fun a b => b <= a));
      intros a b.
    + intros Hlt%Z.ltb_lt. lia.
    + intros Hge%Z.ltb_ge. lia.
  - apply (sorted_Sorted Z.ltb att_pk Z.le); intros a b.
    + intros Hlt%Z.ltb_lt. lia.
    + intros Hge%Z.ltb_ge. lia.
Qed.

Lemma plain_answer_is_ordered_by_pk_witness :
  exists l,
    filter_queryset (request_of AnonymousUser [("sort", "desc")]) attachments
      list_view questions = (Attachments l, questions)
    /\ Sorted (fun a b => att_pk b <= att_pk a) l.
Proof.
  destruct (plain_answer_is_ordered_by_pk
              (request_of AnonymousUser [("sort", "desc")]) attachments
              list_view questions)
    as (l & Hl & _ & Hsorted); [vm_compute; discriminate..|].
  exists l. split; [exact Hl|exact Hsorted].
Defined.

(** A non-empty [group_by] takes the place of [order_by], whatever its
    value: the answer is the same for every [order_by]. *)
Theorem group_by_overrides_order_by request queryset view store g v :
  nonempty (query_params request !! "group_by") = Some g ->
  filter_queryset
    {| user := user request;
       query_params := <["order_by" := v]> (query_params request) |}
    queryset view store
  = filter_queryset request queryset view store.
Proof.
  intros Hg.
  unfold filter_queryset, all_param, order_by_param, by_question,
    by_submission, sort_param, of_type.
  cbn [query_params].
  rewrite !(lookup_insert_ne _ "order_by" "group_by") by discriminate.
  rewrite !(lookup_insert_ne _ "order_by" "all") by discriminate.
  rewrite !(lookup_insert_ne _ "order_by" "sort") by discriminate.
  rewrite !(lookup_insert_ne _ "order_by" "type") by discriminate.
  now rewrite Hg.
Qed.

Lemma group_by_overrides_order_by_witness :
  filter_queryset
    (request_of AnonymousUser [("order_by", "question"); ("group_by", "day")])
    attachments list_view questions
  = filter_queryset (request_of AnonymousUser [("group_by", "day")])
      attachments list_view questions.
Proof.
  apply (group_by_overrides_order_by
           (request_of AnonymousUser [("group_by", "day")]) attachments
           list_view questions "day" "question").
  vm_compute; reflexivity.
Defined.
End AttachmentOrder.
